(** * MoonSync model service: request routing and biometrics endpoints

    A shallow embedding of [src/app.py] (class [Model]) and the properties
    of its endpoints.

    Conventions of the embedding
    - The instance [self] is a finite map from attribute names to Python
      values: reading an attribute that was never assigned raises
      [AttributeError], as in Python.
    - A method is a computation in a state-and-exception monad over [self].
    - Objects built by code outside [src/app.py] (model clients, query
      engines, handlers) are kept symbolic: a value [VCall f kwargs] stands
      for "what the call [f(**kwargs)] returned".  What such code computes
      from data (image summaries, token streams, biometrics, weather) is
      taken from a record of collaborators, [externals].
    - [print] calls are diagnostics on stdout and are left out, and so are
      the request headers, which are read only to be printed. *)

From Stdlib Require Import ZArith Floats DecimalString.
From stdpp Require Import gmap strings list.

#[local] Set Warnings "-register-all".

Local Open Scope string_scope.
Local Open Scope Z_scope.

(** ** Python strings *)

Module PyStr.

(** [s.startswith(p)] *)
Fixpoint startswith (p s : string) : bool :=
  match p, s with
  | EmptyString, _ => true
  | String a p', String b s' => if Ascii.eqb a b then startswith p' s' else false
  | String _ _, EmptyString => false
  end.

(** [needle in hay] for two [str]: the substring test. *)
Fixpoint contains (needle hay : string) : bool :=
  startswith needle hay ||
  match hay with
  | EmptyString => false
  | String _ hay' => contains needle hay'
  end.

(** truthiness of a [str]: non-empty *)
Definition truthy (s : string) : bool :=
  match s with EmptyString => false | String _ _ => true end.

(** The specification of the substring test. *)
Definition occurs_in (needle hay : string) : Prop :=
  ∃ pre post, hay = pre +:+ needle +:+ post.

End PyStr.

(** ** Python floats (binary64) and [round(x, 2)] *)

Module PyFloat.

(** The integer nearest to [n / d] ([d > 0]), ties to the even one. *)
Definition round_half_even (n d : Z) : Z :=
  let q := n / d in
  match 2 * (n mod d) ?= d with
  | Lt => q
  | Gt => q + 1
  | Eq => if Z.even q then q else q + 1
  end.

(** The binary64 number nearest to [n / d] ([n >= 0], [d > 0]), ties to
    even: what [strtod] returns for a decimal numeral. *)
Definition of_ratio (n d : Z) : float :=
  if n =? 0 then 0%float else
  let scaled e := if 0 <=? e then (n, d * 2 ^ e) else (n * 2 ^ (- e), d) in
  let e0 := Z.log2 n - Z.log2 d - 52 in
  let e1 := if (let '(a, b) := scaled e0 in a / b) <? 2 ^ 52 then e0 - 1 else e0 in
  let e := Z.max e1 (-1074) in
  let '(a, b) := scaled e in
  FloatOps.Z.ldexp (PrimFloat.of_uint63 (Uint63.of_Z (round_half_even a b))) e.

(** [float(z)] for an [int] *)
Definition of_int (z : Z) : float :=
  if z <? 0 then (- of_ratio (- z) 1)%float else of_ratio z 1.

(** truthiness: [x != 0.0] (a NaN is truthy, [-0.0] is not) *)
Definition truthy (x : float) : bool := negb (x =? 0)%float.

(** [round(x, 2)]: CPython rounds the exact value of [x] to two decimals,
    ties to even, and converts the numeral back; zeros, infinities and
    NaNs are returned as they are. *)
Definition round2 (x : float) : float :=
  match Prim2SF x with
  | S754_finite s m e =>
      let '(a, b) := if 0 <=? e then (Z.pos m * 2 ^ e * 100, 1)
                     else (Z.pos m * 100, 2 ^ (- e)) in
      let y := of_ratio (round_half_even a b) 100 in
      if s then (- y)%float else y
  | _ => x
  end.

(** The literal [98.6] of the source, as the binary64 number Python reads. *)
Definition f98_6 : float := 0x1.8a66666666666p+6%float.

End PyFloat.

(** ** Calendar dates ([datetime.date]) *)

Module PyDate.

Record date := Date { year : Z; month : Z; day : Z }.

Definition is_leap (y : Z) : bool :=
  (y mod 4 =? 0) && (negb (y mod 100 =? 0) || (y mod 400 =? 0)).

Definition days_before_year (y : Z) : Z :=
  let y' := y - 1 in y' * 365 + y' / 4 - y' / 100 + y' / 400.

Definition days_in_month (y m : Z) : Z :=
  if m =? 2 then (if is_leap y then 29 else 28)
  else if (m =? 4) || (m =? 6) || (m =? 9) || (m =? 11) then 30 else 31.

Definition days_before_month (y m : Z) : Z :=
  fold_right Z.add 0 (map (days_in_month y) (map Z.of_nat (seq 1 (Z.to_nat (m - 1))))).

(** [d.toordinal()] *)
Definition toordinal (d : date) : Z :=
  days_before_year (year d) + days_before_month (year d) (month d) + day d.

(** [d.weekday()]: Monday is 0 *)
Definition weekday (d : date) : Z := (toordinal d + 6) mod 7.

Definition digit (z : Z) : string :=
  String (Ascii.ascii_of_nat (48 + Z.to_nat (z mod 10))) "".

Fixpoint zero_padded (width : nat) (z : Z) : string :=
  match width with
  | O => ""
  | S w => zero_padded w (z / 10) +:+ digit z
  end.

(** [str(d)], the ISO form [YYYY-MM-DD] *)
Definition isoformat (d : date) : string :=
  zero_padded 4 (year d) +:+ "-" +:+ zero_padded 2 (month d) +:+ "-" +:+ zero_padded 2 (day d).

End PyDate.
Export PyDate.

(** ** Exceptions, values and the method monad *)

Inductive exn :=
| KeyError (key : string)
| AttributeError (attr : string)
| TypeError (what : string)
| IndexError
| UnboundLocalError (name : string)
| OverflowError (what : string)
| ExternalError (callee : string).

Inductive result (A : Type) :=
| Ok (a : A)
| Raise (e : exn).
Arguments Ok {A} a.
Arguments Raise {A} e.

(** Python values held in attributes, rows and JSON bodies.  [VConst n] is
    the module constant [n] imported from [config]; [VCall f args] is what
    a call into code outside [src/app.py] returned (positional arguments
    are named by their position); [VNth v i] is the [i]-th component of
    such a value when the source unpacks it. *)
Inductive pyval :=
| VNone
| VBool (b : bool)
| VInt (z : Z)
| VFloat (x : float)
| VStr (s : string)
| VDate (d : date)
| VList (l : list pyval)
| VDict (kv : list (string * pyval))
| VConst (name : string)
| VCall (callee : string) (args : list (string * pyval))
| VNth (v : pyval) (i : nat).

(** The instance [self]: attribute name to value. *)
Abbreviation obj := (gmap string pyval).

(** A method body: reads and writes [self], returns or raises. *)
Definition M (A : Type) : Type := obj → result A * obj.

Definition ret {A} (a : A) : M A := λ σ, (Ok a, σ).

Definition raise {A} (e : exn) : M A := λ σ, (Raise e, σ).

Definition bind {A B} (c : M A) (k : A → M B) : M B :=
  λ σ, match c σ with
       | (Ok a, σ') => k a σ'
       | (Raise e, σ') => (Raise e, σ')
       end.

Definition lift {A} (r : result A) : M A := λ σ, (r, σ).

Notation "'let*' x ':=' c 'in' k" := (bind c (λ x, k))
  (at level 10, x pattern, c at level 100, k at level 200).
Notation "c ';;' k" := (bind c (λ _, k))
  (at level 100, k at level 200, right associativity).

(** Sequencing on results alone, for code that does not touch [self]. *)
Definition rbind {A B} (r : result A) (k : A → result B) : result B :=
  match r with
  | Ok a => k a
  | Raise e => Raise e
  end.

Notation "'try*' x ':=' r 'in' k" := (rbind r (λ x, k))
  (at level 10, x pattern, r at level 100, k at level 200).

(** [self.name] *)
Definition getattr (name : string) : M pyval :=
  λ σ, match σ !! name with
       | Some v => (Ok v, σ)
       | None => (Raise (AttributeError name), σ)
       end.

(** [self.name = v] *)
Definition setattr (name : string) (v : pyval) : M unit :=
  λ σ, (Ok tt, <[name := v]> σ).

(** [d[key]] on a dictionary with string values *)
Definition getitem {A} (d : gmap string A) (key : string) : result A :=
  match d !! key with
  | Some v => Ok v
  | None => Raise (KeyError key)
  end.

(** [d[key]] when the key is modelled as an optional field *)
Definition field {A} (key : string) (o : option A) : result A :=
  match o with
  | Some v => Ok v
  | None => Raise (KeyError key)
  end.

(** ** Numbers as the endpoints use them *)

Module PyNum.

(** truthiness of the values a biometric reading can be *)
Definition truthy (v : pyval) : bool :=
  match v with
  | VNone => false
  | VBool b => b
  | VInt z => negb (z =? 0)
  | VFloat x => PyFloat.truthy x
  | VStr s => PyStr.truthy s
  | VList l => match l with [] => false | _ => true end
  | VDict kv => match kv with [] => false | _ => true end
  | _ => true
  end.

(** A number as arithmetic sees it: [bool] is a subtype of [int]. *)
Definition as_number (v : pyval) : option (Z + float) :=
  match v with
  | VBool b => Some (inl (Z.b2z b))
  | VInt z => Some (inl z)
  | VFloat x => Some (inr x)
  | _ => None
  end.

(** [float(z)] as mixed arithmetic converts an [int] *)
Definition float_of_int (z : Z) : result float :=
  let x := PyFloat.of_int z in
  if PrimFloat.is_infinity x
  then Raise (OverflowError "int too large to convert to float")
  else Ok x.

(** [a + b] on numbers *)
Definition add (a b : pyval) : result pyval :=
  match as_number a, as_number b with
  | Some (inl x), Some (inl y) => Ok (VInt (x + y))
  | Some (inl x), Some (inr y) =>
      try* x' := float_of_int x in Ok (VFloat (x' + y))
  | Some (inr x), Some (inl y) =>
      try* y' := float_of_int y in Ok (VFloat (x + y'))
  | Some (inr x), Some (inr y) => Ok (VFloat (x + y))
  | _, _ => Raise (TypeError "unsupported operand type(s) for +")
  end.

(** [round(v, 2)]: an [int] is returned as it is, a [bool] as an [int] *)
Definition round2 (v : pyval) : result pyval :=
  match as_number v with
  | Some (inl z) => Ok (VInt z)
  | Some (inr x) => Ok (VFloat (PyFloat.round2 x))
  | None => Raise (TypeError "type doesn't define __round__ method")
  end.

(** [divmod(a, b)] on [int]s: floor division, as [Z.div] and [Z.modulo] *)
Definition divmod (a b : Z) : Z * Z := (a / b, a mod b).

(** [str(z)] for an [int] *)
Definition str_int (z : Z) : string := NilZero.string_of_int (Z.to_int z).

End PyNum.

(** ** Requests, responses and collaborators *)

(** One entry of a structured-content prompt: a dictionary whose keys
    ["type"], ["text"] and ["image_url"] may each be missing.
    [part_image_url] is the value of [value["image_url"]["url"]]. *)
Record content_part := ContentPart {
  part_type : option string;
  part_text : option string;
  part_image_url : option string;
}.

(** [item["prompt"]]: a string or a structured-content list. *)
Inductive prompt_field :=
| PromptStr (s : string)
| PromptList (parts : list content_part).

Record message := Message { role : string; content : string }.

(** The JSON body [item] of a POST request; [None] is a missing key. *)
Record item := Item {
  item_prompt : option prompt_field;
  item_messages : option (list message);
  item_terra_user_id : option string;
  item_user_id : option string;
}.

(** The object [ImageHandler(...).run()] returns; the source reads its
    [text]. *)
Record image_summary := ImageSummary { text : string }.

(** The local [image_response]: the empty string it starts as, or the
    handler's object. *)
Inductive image_response :=
| NoImageResponse
| ImageResponse (r : image_summary).

(** A generator object: the generator function called and its arguments.
    Calling a generator function runs none of its body. *)
Inductive generator :=
| gen_inference (prompt : string) (messages : list message)
| gen_online_inference (prompt : string) (messages : list message)
| gen_event_schedule_runner (prompt : string) (messages : list message).

Record StreamingResponse := {
  body : generator;
  media_type : string;
}.

(** Constructor arguments of the two handlers the pipelines build. *)
Record ChatHandler := {
  ch_prompt : string;
  ch_messages : list message;
  ch_user_info_content : pyval;
  ch_sub_question_query_engine : option pyval;
  ch_chat_engine : option pyval;
  ch_menstrual_phase_info : option pyval;
}.

Record EventSchedulerHandler := {
  es_prompt : string;
  es_messages : list message;
  es_llm : pyval;
  es_current_date : pyval;
}.

(** The body of the weather service's reply. *)
Record weather_reply := {
  status_code : Z;
  wx_location_name : option string;
  wx_temp_f : option pyval;
  wx_condition_text : option string;
}.

(** What lies outside [src/app.py] at the time of a call: the process
    environment, the clock, and the collaborators the methods call. *)
Record externals := {
  environ : gmap string string;
  datetime_today : date;
  shutil_copy : string → string → result unit;
  ImageHandler_run : string → result image_summary;
  ChatHandler_run_offline : ChatHandler → result (pyval * list string);
  ChatHandler_run_online : ChatHandler → result pyval;
  stream_chat : pyval → pyval → result (list string);
  EventSchedulerHandler_run : EventSchedulerHandler → result (list string);
  DashBoardHandler_run : pyval → pyval → pyval → result pyval;
  get_onboarding_data : pyval → pyval → string → pyval → result unit;
  get_dashboard_data : string → string → string → result (Z * pyval);
  requests_get : pyval → list (string * string) → result weather_reply;
}.

(** Line feed, the ["\n"] of the source. *)
Definition LF : string := String (Ascii.ascii_of_nat 10) "".

(** ** The class [Model] *)

Section Model.

Variable ext : externals.

(** [os.environ[key]] *)
Definition os_environ (key : string) : M string :=
  lift (getitem (environ ext) key).

Definition day_names : list string :=
  ["Monday"; "Tuesday"; "Wednesday"; "Thursday"; "Friday"; "Saturday"; "Sunday"].

(** One dictionary of [tools_data]. *)
Definition tool (query_engine : pyval) (name description : string) : pyval :=
  VDict [("query_engine", query_engine); ("name", VStr name);
         ("description", VStr description)].

Definition database_description : string :=
  "Use this to get relevant biometrics (health parameters) data relevant to the query from the 'user_biometrics' SQL table."
  +:+ LF +:+
  "            Always use the terra_user_id to filter data for the given user. You have access to the following columns - "
  +:+ LF +:+
  "            id, avg_hr_bpm, resting_hr_bpm, duration_in_bed_seconds_data, duration_deep_sleep, temperature_delta, avg_saturation_percentage, recovery_score, activity_score, sleep_score, stress_data, number_steps, total_burned_calories, date, terra_user_id"
  +:+ LF +:+
  "            ".

(** [tools_data] of [enter] (lines 253-287), given the six query engines. *)
Definition tools_data (mood_feeling diet_nutrition general fitness_wellness
                       empty sql : pyval) : list pyval :=
  [ tool mood_feeling "mood/feeling"
      "Useful for questions related to women's mood and feelings";
    tool diet_nutrition "diet/nutrition"
      "Useful for questions related to women's diet and nutrition recommendatations";
    tool general "general"
      "Useful for general questions related to women's menstrual cycle";
    tool fitness_wellness "fitness/wellness"
      "Useful for questions related to fitness and wellness advice for women";
    tool empty "NOTA"
      "Use this if none of the other tools are relevant to the query";
    tool sql "database" database_description ].

(** The f-string of line 250. *)
Definition content_template_of (current_date : date) (day_name : string) : string :=
  LF +:+ "Important information to be considered while answering the query:"
  +:+ LF +:+ "Current Mensural Phase: Follicular "
  +:+ LF +:+ "Today's date: " +:+ isoformat current_date +:+ " "
  +:+ LF +:+ "Day of the week: " +:+ day_name +:+ " "
  +:+ LF +:+ " Current Location: New York City".

(** [enter] (lines 99-298), run once when the container starts.  The
    tracing callbacks and the [Settings] of the retrieval library are
    globals of that library and are not attributes of [self]. *)
Definition enter : M unit :=
  setattr "SYSTEM_PROMPT" (VConst "SYSTEM_PROMPT");;
  let* url := os_environ "SUPABASE_URL" in
  let* key := os_environ "SUPABASE_KEY" in
  setattr "supabase" (VCall "create_client" [("0", VStr url); ("1", VStr key)]);;
  let* groq_key := os_environ "GROQ_API_KEY" in
  setattr "groq"
    (VCall "LLMModel.get_groq_model"
       [("model", VStr "llama3-8b-8192"); ("api_key", VStr groq_key)]);;
  let* openai_key := os_environ "OPENAI_API_KEY" in
  setattr "llm"
    (VCall "LLMModel.get_openai_model"
       [("model", VStr "gpt-4-turbo"); ("api_key", VStr openai_key)]);;
  let* groq_key := os_environ "GROQ_API_KEY" in
  setattr "subquestion_llm"
    (VCall "LLMModel.get_openai_like_model"
       [("model", VStr "llama3-8b-8192");
        ("api_base", VStr "https://api.groq.com/openai/v1");
        ("api_key", VStr groq_key);
        ("temperature", VFloat 0x1.999999999999ap-4);
        ("is_function_calling_model", VBool true);
        ("is_chat_model", VBool true)]);;
  let* azure_key := os_environ "AZURE_CHAT_API_KEY" in
  let* azure_endpoint := os_environ "AZURE_CHAT_ENDPOINT" in
  setattr "embed_model"
    (VCall "LLMModel.get_azure_embedding_model"
       [("model", VStr "text-embedding-ada-002");
        ("deployment_name", VStr "embedding-model");
        ("api_key", VStr azure_key);
        ("azure_endpoint", VStr azure_endpoint);
        ("api_version", VStr "2023-10-01-preview")]);;
  let* pplx_key := os_environ "PPLX_API_KEY" in
  setattr "pplx_llm"
    (VCall "LLMModel.get_perplexity_model"
       [("model", VConst "PPLX_MODEL"); ("api_key", VStr pplx_key);
        ("temperature", VConst "PPLX_MODEL_TEMPERATURE")]);;
  let* api_key := os_environ "PINECONE_API_KEY" in
  let vector_db := VCall "VectorDB" [("api_key", VStr api_key)] in
  let* terra_dev_id := os_environ "TERRA_DEV_ID" in
  setattr "TERRA_DEV_ID" (VStr terra_dev_id);;
  let* terra_api_key := os_environ "TERRA_API_KEY" in
  setattr "TERRA_API_KEY" (VStr terra_api_key);;
  lift (shutil_copy ext "/volumes/moonsync/google_credentials/token.json" "token.json");;
  let vector_indexes :=
    VCall "VectorDB.get_vector_indexes"
      [("self", vector_db);
       ("0", VList [VStr "moonsync-index-mood-feeling"; VStr "moonsync-index-general";
                    VStr "moonsync-index-diet-nutrition";
                    VStr "moonsync-index-fitness-wellness"])] in
  let sources_qa_prompt :=
    VList [VCall "ChatMessage" [("role", VConst "MessageRole.SYSTEM");
                                ("content", VConst "SOURCE_QA_PROMPT_SYSTEM")];
           VCall "ChatMessage" [("role", VConst "MessageRole.USER");
                                ("content", VConst "SOURCE_QA_PROMPT_USER")]] in
  let sources_prompt := VCall "ChatPromptTemplate" [("0", sources_qa_prompt)] in
  let* groq := getattr "groq" in
  let query_engines :=
    VCall "QueryEngine.get_vector_query_engines"
      [("vector_indexes", vector_indexes); ("llm", groq);
       ("similarity_top_k", VInt 2); ("text_qa_template", sources_prompt)] in
  let* groq := getattr "groq" in
  let dashboard_data_query_engines :=
    VCall "QueryEngine.get_dashboard_query_engines"
      [("vector_indexes", vector_indexes); ("llm", groq);
       ("similarity_top_k", VInt 2)] in
  let mood_feeling_query_engine := VNth query_engines 0 in
  let general_query_engine := VNth query_engines 1 in
  let diet_nutrition_query_engine := VNth query_engines 2 in
  let fitness_wellness_query_engine := VNth query_engines 3 in
  setattr "mood_feeling_qe" (VNth dashboard_data_query_engines 0);;
  setattr "diet_nutrition_qe" (VNth dashboard_data_query_engines 2);;
  setattr "fitness_wellness_qe" (VNth dashboard_data_query_engines 3);;
  let empty_query_engine := VCall "QueryEngine.get_empty_query_engine" [] in
  let* db_url := os_environ "SUPABASE_DB_URL" in
  let* llm := getattr "llm" in
  let sql_query_engine :=
    VCall "QueryEngine.get_sql_query_engine"
      [("db_url", VStr db_url); ("tables", VList [VStr "user_biometrics"]);
       ("llm", llm)] in
  (* lines 234-236 format today's date as %Y-%m-%d and parse it back:
     the calendar date of the clock *)
  let current_date := datetime_today ext in
  setattr "current_date" (VDate current_date);;
  let day_of_week := weekday current_date in
  let* day_name :=
    lift (match day_names !! Z.to_nat day_of_week with
          | Some n => Ok n
          | None => Raise IndexError
          end) in
  setattr "day_name" (VStr day_name);;
  setattr "content_template" (VStr (content_template_of current_date day_name));;
  setattr "phase_info" (VStr "My current mensural phase is: Follicular");;
  let query_engine_tools :=
    VCall "QueryEngine.get_query_engine_tools"
      [("0", VList (tools_data mood_feeling_query_engine diet_nutrition_query_engine
                      general_query_engine fitness_wellness_query_engine
                      empty_query_engine sql_query_engine))] in
  let* subquestion_llm := getattr "subquestion_llm" in
  setattr "sub_question_query_engine"
    (VCall "QueryEngine.get_subquestion_query_engine"
       [("query_engine_tools", query_engine_tools);
        ("subquestion_llm", subquestion_llm)]);;
  let* sub_question_query_engine := getattr "sub_question_query_engine" in
  let* content_template := getattr "content_template" in
  setattr "chat_engine"
    (VCall "QueryEngine.get_chat_engine"
       [("query_engine", sub_question_query_engine);
        ("user_info_content", content_template)]).

(** The handler [_inference] builds (lines 301-308). *)
Definition inference_handler (prompt : string) (messages : list message) : M ChatHandler :=
  let* content_template := getattr "content_template" in
  let* sub_question_query_engine := getattr "sub_question_query_engine" in
  let* chat_engine := getattr "chat_engine" in
  let* phase_info := getattr "phase_info" in
  ret {| ch_prompt := prompt; ch_messages := messages;
         ch_user_info_content := content_template;
         ch_sub_question_query_engine := Some sub_question_query_engine;
         ch_chat_engine := Some chat_engine;
         ch_menstrual_phase_info := Some phase_info |}.

(** The body of the generator [_inference] (lines 300-311), run to its
    end: the tokens it yields. *)
Definition _inference (prompt : string) (messages : list message) : M (list string) :=
  let* chat_handler := inference_handler prompt messages in
  let* r := lift (ChatHandler_run_offline ext chat_handler) in
  let '(chat_engine, response_gen) := r in
  setattr "chat_engine" chat_engine;;
  ret response_gen.

(** The body of the generator [_online_inference] (lines 313-322). *)
Definition _online_inference (prompt : string) (messages : list message) : M (list string) :=
  let* content_template := getattr "content_template" in
  let chat_handler :=
    {| ch_prompt := prompt; ch_messages := messages;
       ch_user_info_content := content_template;
       ch_sub_question_query_engine := None;
       ch_chat_engine := None;
       ch_menstrual_phase_info := None |} in
  let* curr_history := lift (ChatHandler_run_online ext chat_handler) in
  let* pplx_llm := getattr "pplx_llm" in
  lift (stream_chat ext pplx_llm curr_history).

(** The handler [_event_schedule_runner] builds (lines 326-331). *)
Definition event_scheduler_handler (prompt : string) (messages : list message)
  : M EventSchedulerHandler :=
  let* llm := getattr "llm" in
  let* current_date := getattr "current_date" in
  ret {| es_prompt := prompt; es_messages := messages;
         es_llm := llm; es_current_date := current_date |}.

(** The body of the generator [_event_schedule_runner] (lines 325-334). *)
Definition _event_schedule_runner (prompt : string) (messages : list message)
  : M (list string) :=
  let* event_scheduler_handler := event_scheduler_handler prompt messages in
  lift (EventSchedulerHandler_run ext event_scheduler_handler).

(** Iterating a generator object to its end, as the server does when it
    streams the response. *)
Definition run_generator (g : generator) : M (list string) :=
  match g with
  | gen_inference prompt messages => _inference prompt messages
  | gen_online_inference prompt messages => _online_inference prompt messages
  | gen_event_schedule_runner prompt messages => _event_schedule_runner prompt messages
  end.

(** One turn of the loop of lines 340-344 on the locals
    [(prompt, image_url)]. *)
Definition prompt_part (value : content_part) (locals : string * string)
  : result (string * string) :=
  let '(prompt, image_url) := locals in
  try* ty := field "type" (part_type value) in
  try* prompt := (if String.eqb ty "text" then field "text" (part_text value)
                  else Ok prompt) in
  try* ty := field "type" (part_type value) in
  try* image_url := (if String.eqb ty "image_url"
                     then field "image_url" (part_image_url value)
                     else Ok image_url) in
  Ok (prompt, image_url).

(** The loop of lines 340-344. *)
Fixpoint prompt_parts (values : list content_part) (locals : string * string)
  : result (string * string) :=
  match values with
  | [] => Ok locals
  | value :: values' =>
      match prompt_part value locals with
      | Ok locals' => prompt_parts values' locals'
      | Raise e => Raise e
      end
  end.

(** Lines 338-346: the locals [(prompt, image_url)] after reading
    [item["prompt"]]. *)
Definition read_prompt (p : prompt_field) : result (string * string) :=
  match p with
  | PromptList values => prompt_parts values ("", "")
  | PromptStr s => Ok (s, "")
  end.

(** Lines 338-350: what [web_inference] reads from the request, namely
    the user's text, the messages and the image summary.  Nothing here
    touches [self]. *)
Definition read_request (it : item)
  : result (string * list message * image_response) :=
  try* p := field "prompt" (item_prompt it) in
  try* locals := read_prompt p in
  let '(prompt, image_url) := locals in
  try* messages := field "messages" (item_messages it) in
  try* image_response :=
    (if PyStr.truthy image_url
     then try* r := ImageHandler_run ext image_url in Ok (ImageResponse r)
     else Ok NoImageResponse) in
  Ok (prompt, messages, image_response).

(** Lines 357-360: the prompt after the user identifier is attached;
    [terra_user_id] is [item.get("terra_user_id", None)]. *)
Definition with_terra_user_id (prompt : string) (terra_user_id : option string) : string :=
  match terra_user_id with
  | Some id => if PyStr.truthy id then prompt +:+ LF +:+ "Terra User ID: " +:+ id
               else prompt
  | None => prompt
  end.

(** Lines 338-361 of [web_inference]: the locals [prompt], [messages] and
    [image_response] when the marker tests are reached. *)
Definition web_inference_locals (it : item)
  : M (string * list message * image_response) :=
  let* request := lift (read_request it) in
  let '(prompt, messages, image_response) := request in
  let terra_user_id := item_terra_user_id it in
  let prompt := with_terra_user_id prompt terra_user_id in
  ret (prompt, messages, image_response).

(** Lines 363-386 of [web_inference]: the marker tests and the response. *)
Definition web_inference_route (prompt : string) (messages : list message)
    (image_response : image_response) : StreamingResponse :=
  if PyStr.contains "@internet" prompt then
    {| body := gen_online_inference prompt messages;
       media_type := "text/event-stream" |}
  else if PyStr.contains "schedule" prompt then
    {| body := gen_event_schedule_runner prompt messages;
       media_type := "text/event-stream" |}
  else
    let prompt :=
      match image_response with
      | ImageResponse r =>
          prompt +:+ LF +:+ "Additional information about the image uploaded "
          +:+ LF +:+ " " +:+ text r
      | NoImageResponse => prompt
      end in
    {| body := gen_inference prompt messages;
       media_type := "text/event-stream" |}.

(** [web_inference] (lines 336-386). *)
Definition web_inference (it : item) : M StreamingResponse :=
  let* locals := web_inference_locals it in
  let '(prompt, messages, image_response) := locals in
  ret (web_inference_route prompt messages image_response).

(** [dashboard_details] (lines 388-395). *)
Definition dashboard_details : M pyval :=
  let* mood_feeling_qe := getattr "mood_feeling_qe" in
  let* diet_nutrition_qe := getattr "diet_nutrition_qe" in
  let* fitness_wellness_qe := getattr "fitness_wellness_qe" in
  lift (DashBoardHandler_run ext mood_feeling_qe diet_nutrition_qe fitness_wellness_qe).

(** [_get_weather] (lines 397-420).  The locals [location], [temp_f] and
    [condition] are bound only in the branch of status 200. *)
Definition _get_weather : M (gmap string pyval) :=
  let* api_key := os_environ "WEATHER_API_KEY" in
  let params := [("key", api_key); ("q", "New York City"); ("aqi", "no")] in
  let* response := lift (requests_get ext (VConst "WEATHER_API_URL") params) in
  let* bound :=
    if status_code response =? 200 then
      let* location := lift (field "name" (wx_location_name response)) in
      let* temp_f := lift (field "temp_f" (wx_temp_f response)) in
      let* condition := lift (field "text" (wx_condition_text response)) in
      ret (Some (location, temp_f, condition))
    else ret None in
  match bound with
  | Some (location, temp_f, condition) =>
      ret (<["location" := VStr location]>
             (<["condition" := VStr condition]> (<["temp_f" := temp_f]> ∅)))
  | None => raise (UnboundLocalError "location")
  end.

(** [df.iloc[-1]]: the last row of a table held as a list of rows. *)
Definition iloc_last (df : pyval) : result pyval :=
  match df with
  | VList rows =>
      match last rows with
      | Some row => Ok row
      | None => Raise IndexError
      end
  | _ => Raise (AttributeError "iloc")
  end.

(** [row[column]] *)
Definition row_get (row : pyval) (column : string) : result pyval :=
  match row with
  | VDict kv =>
      match list_find (λ e, fst e = column) kv with
      | Some (_, e) => Ok (snd e)
      | None => Raise (KeyError column)
      end
  | _ => Raise (TypeError "row is not subscriptable by name")
  end.

(** The seconds of sleep as [divmod] and the f-string take them: an
    [int].  Sleep held as a [float] is outside this model. *)
Definition as_int (v : pyval) : result Z :=
  match PyNum.as_number v with
  | Some (inl z) => Ok z
  | _ => Raise (TypeError "int expected")
  end.

(** The f-string [f"{hours} hours {mins} mins"]. *)
Definition sleep_text (hours mins : Z) : string :=
  PyNum.str_int hours +:+ " hours " +:+ PyNum.str_int mins +:+ " mins".

(** The [body_temperature] of [biometrics_details] (lines 428 and 440):
    [round(98.6 + temperature_delta, 2)]. *)
Definition biometrics_body_temperature (temperature_delta : pyval) : result pyval :=
  try* temperature := PyNum.add (VFloat PyFloat.f98_6) temperature_delta in
  PyNum.round2 temperature.

(** [biometrics_details] (lines 422-443). *)
Definition biometrics_details : M (gmap string pyval) :=
  let* df := getattr "df" in
  let* row := lift (iloc_last df) in
  let* menstrual_phase := lift (row_get row "menstrual_phase") in
  let* df := getattr "df" in
  let* row := lift (iloc_last df) in
  let* sleep := lift (row_get row "duration_in_bed") in
  let* df := getattr "df" in
  let* row := lift (iloc_last df) in
  let* temperature_delta := lift (row_get row "temperature_delta") in
  let* temperature := lift (PyNum.add (VFloat PyFloat.f98_6) temperature_delta) in
  let* sleep := lift (as_int sleep) in
  let '(m, s) := PyNum.divmod sleep 60 in
  let '(hours, mins) := PyNum.divmod m 60 in
  let sleep := sleep_text hours mins in
  let* weather_data := _get_weather in
  let* body_temperature := lift (PyNum.round2 temperature) in
  let response_json : gmap string pyval :=
    <["menstrual_phase" := menstrual_phase]>
      (<["sleep" := VStr sleep]> (<["body_temperature" := body_temperature]> ∅)) in
  ret (weather_data ∪ response_json).

(** [initial_biometric_data_load] (lines 445-456). *)
Definition initial_biometric_data_load (it : item) : M (gmap string pyval) :=
  let* user_id := lift (field "user_id" (item_user_id it)) in
  let* terra_dev_id := getattr "TERRA_DEV_ID" in
  let* terra_api_key := getattr "TERRA_API_KEY" in
  let* supabase := getattr "supabase" in
  lift (get_onboarding_data ext terra_dev_id terra_api_key user_id supabase);;
  ret (<["status" := VStr "complete"]> ∅).

(** Line 481: [round(temperature if temperature else 0 + 98.6, 2)].  The
    conditional expression binds weaker than [+], so the sum is its
    [else] operand. *)
Definition dashboard_body_temperature (temperature : pyval) : result pyval :=
  try* v := (if PyNum.truthy temperature then Ok temperature
             else PyNum.add (VInt 0) (VFloat PyFloat.f98_6)) in
  PyNum.round2 v.

(** [dasboard_biometric_data_load] (lines 458-487).  The collaborator
    [get_dashboard_data] returns the seconds of sleep, an [int], and the
    temperature reading. *)
Definition dasboard_biometric_data_load (it : item) : M (gmap string pyval) :=
  let* user_id := lift (field "user_id" (item_user_id it)) in
  let* DEV_ID := os_environ "TERRA_DEV_ID" in
  let* API_KEY := os_environ "TERRA_API_KEY" in
  let menstrual_phase := "Follicular" in
  let* data := lift (get_dashboard_data ext DEV_ID API_KEY user_id) in
  let '(sleep, temperature) := data in
  let '(m, _) := PyNum.divmod sleep 60 in
  let '(hours, mins) := PyNum.divmod m 60 in
  let sleep := sleep_text hours mins in
  let* weather_data := _get_weather in
  let* body_temperature := lift (dashboard_body_temperature temperature) in
  let response_json : gmap string pyval :=
    <["status" := VStr "complete"]>
      (<["sleep" := VStr sleep]>
         (<["body_temperature" := body_temperature]>
            (<["menstrual_phase" := VStr menstrual_phase]> ∅))) in
  ret (weather_data ∪ response_json).

End Model.

(** ** The life of a container

    The platform runs [enter] once on a fresh instance and then serves
    requests on that instance.  Each request meets its own surroundings
    (clock, environment, collaborators). *)

Inductive call :=
| call_web_inference (it : item) (streamed : bool)
| call_dashboard_details
| call_biometrics_details
| call_initial_biometric_data_load (it : item)
| call_dasboard_biometric_data_load (it : item).

(** Serving one request; a response of [web_inference] is streamed to its
    end unless the client has gone ([streamed = false]). *)
Definition serve (ext : externals) (c : call) : M unit :=
  match c with
  | call_web_inference it streamed =>
      let* response := web_inference ext it in
      if streamed then run_generator ext (body response);; ret tt else ret tt
  | call_dashboard_details => dashboard_details ext;; ret tt
  | call_biometrics_details => biometrics_details ext;; ret tt
  | call_initial_biometric_data_load it => initial_biometric_data_load ext it;; ret tt
  | call_dasboard_biometric_data_load it => dasboard_biometric_data_load ext it;; ret tt
  end.

(** The instance after a sequence of requests, each with its surroundings. *)
Definition after (σ : obj) (calls : list (externals * call)) : obj :=
  fold_left (λ σ ec, (serve ec.1 ec.2 σ).2) calls σ.

(** The instance of a container started in the surroundings [boot], after
    the requests [calls]. *)
Definition container (boot : externals) (calls : list (externals * call)) : obj :=
  after (enter boot ∅).2 calls.

(** ** Observations on responses and instances *)

Inductive pipeline := LiveWeb | Scheduling | Retrieval.

Definition pipeline_of (g : generator) : pipeline :=
  match g with
  | gen_online_inference _ _ => LiveWeb
  | gen_event_schedule_runner _ _ => Scheduling
  | gen_inference _ _ => Retrieval
  end.

(** The prompt a generator object was created with. *)
Definition prompt_of (g : generator) : string :=
  match g with
  | gen_online_inference prompt _ => prompt
  | gen_event_schedule_runner prompt _ => prompt
  | gen_inference prompt _ => prompt
  end.

(** The argument [name] of a call kept symbolic. *)
Definition call_arg (name : string) (v : pyval) : option pyval :=
  match v with
  | VCall _ args => snd <$> (snd <$> list_find (λ a, fst a = name) args)
  | _ => None
  end.

(** The entry [key] of a dictionary. *)
Definition dict_get (key : string) (v : pyval) : option pyval :=
  match v with
  | VDict kv => snd <$> (snd <$> list_find (λ e, fst e = key) kv)
  | _ => None
  end.

(** The tool registry of an instance: the list the sub-question engine in
    [self.sub_question_query_engine] was built from. *)
Definition tool_registry (σ : obj) : option (list pyval) :=
  engine ← σ !! "sub_question_query_engine";
  query_engine_tools ← call_arg "query_engine_tools" engine;
  tools ← call_arg "0" query_engine_tools;
  match tools with
  | VList l => Some l
  | _ => None
  end.

Definition tool_name (t : pyval) : option string :=
  match dict_get "name" t with
  | Some (VStr n) => Some n
  | _ => None
  end.

Definition tool_handler (t : pyval) : option pyval := dict_get "query_engine" t.

(** How many tools of a registry bear the name [n]. *)
Definition count_named (n : string) (tools : list pyval) : nat :=
  length (filter (λ t, tool_name t = Some n) tools).

(** What the user identifier adds to the prompt (line 360). *)
Definition terra_suffix (terra_user_id : option string) : string :=
  match terra_user_id with
  | Some id => if PyStr.truthy id then LF +:+ "Terra User ID: " +:+ id else ""
  | None => ""
  end.

(** The selection the two marker tests make on a prompt. *)
Definition select (prompt : string) : pipeline :=
  if PyStr.contains "@internet" prompt then LiveWeb
  else if PyStr.contains "schedule" prompt then Scheduling
  else Retrieval.

(** What line 376-381 adds to the prompt for an image summary. *)
Definition image_suffix (r : image_summary) : string :=
  LF +:+ "Additional information about the image uploaded " +:+ LF +:+ " " +:+ text r.

(** A structured part whose keys are there when the loop reads them. *)
Definition well_formed_part (p : content_part) : bool :=
  match part_type p with
  | None => false
  | Some ty =>
      (if String.eqb ty "text"
       then match part_text p with Some _ => true | None => false end
       else true)
      && (if String.eqb ty "image_url"
          then match part_image_url p with Some _ => true | None => false end
          else true)
  end.

(** An entry of type ["text"]. *)
Definition is_text (p : content_part) : bool :=
  match part_type p with
  | Some ty => String.eqb ty "text"
  | None => false
  end.

(** The text an entry of type ["text"] carries. *)
Definition text_of (p : content_part) : option string :=
  if is_text p then part_text p else None.

(** An entry of type ["image_url"]. *)
Definition is_image_url (p : content_part) : bool :=
  match part_type p with
  | Some ty => String.eqb ty "image_url"
  | None => false
  end.

(** The URL an entry of type ["image_url"] carries. *)
Definition url_of (p : content_part) : option string :=
  if is_image_url p then part_image_url p else None.

(** The user's own text in a request body: the prompt string, or, for a
    structured-content prompt, the text of its last entry of type
    ["text"] (empty when it has none).  It is read off the body alone. *)
Definition user_text (p : prompt_field) : string :=
  match p with
  | PromptStr s => s
  | PromptList parts => default "" (last (omap text_of parts))
  end.

(** The image a request body refers to: the URL of the last entry of type
    ["image_url"] of a structured-content prompt (empty when there is
    none). *)
Definition user_image_url (p : prompt_field) : string :=
  match p with
  | PromptStr _ => ""
  | PromptList parts => default "" (last (omap url_of parts))
  end.

(** The description of a tool of the registry. *)
Definition tool_description (t : pyval) : option string :=
  match dict_get "description" t with
  | Some (VStr d) => Some d
  | _ => None
  end.

(** The sentence of the database tool's description (line 283) that asks
    for the filter. *)
Definition filter_instruction : string :=
  "Always use the terra_user_id to filter data for the given user".

(** ** Concrete surroundings and requests *)

Definition example_environ : gmap string string :=
  list_to_map
    (map (λ k, (k, "k-" +:+ k))
       ["SUPABASE_URL"; "SUPABASE_KEY"; "GROQ_API_KEY"; "OPENAI_API_KEY";
        "AZURE_CHAT_API_KEY"; "AZURE_CHAT_ENDPOINT"; "PPLX_API_KEY";
        "PINECONE_API_KEY"; "TERRA_DEV_ID"; "TERRA_API_KEY"; "SUPABASE_DB_URL";
        "WEATHER_API_KEY"]).

(** Surroundings in which every collaborator answers; the clock shows
    [today] and the temperature reading is [temperature]. *)
Definition example_surroundings (today : date) (temperature : pyval) : externals := {|
  environ := example_environ;
  datetime_today := today;
  shutil_copy := λ _ _, Ok tt;
  ImageHandler_run := λ _, Ok (ImageSummary "A printed schedule pinned to a wall");
  ChatHandler_run_offline := λ h, Ok (VCall "ChatHandler.chat_engine" [], ["Hello"; " there"]);
  ChatHandler_run_online := λ h, Ok (VList []);
  stream_chat := λ _ _, Ok ["It"; " is"; " sunny"];
  EventSchedulerHandler_run := λ h, Ok ["Event"; " proposed"];
  DashBoardHandler_run := λ _ _ _, Ok VNone;
  get_onboarding_data := λ _ _ _ _, Ok tt;
  get_dashboard_data := λ _ _ _, Ok (27000, temperature);
  requests_get := λ _ _,
    Ok {| status_code := 200; wx_location_name := Some "New York";
          wx_temp_f := Some (VFloat 70); wx_condition_text := Some "Sunny" |};
|}.

Definition monday : date := Date 2024 4 15.
Definition saturday : date := Date 2024 4 20.

(** The container starts on a Monday; requests arrive the Saturday after. *)
Definition at_boot : externals := example_surroundings monday VNone.
Definition at_call : externals := example_surroundings saturday VNone.

Definition text_request (prompt : string) (terra_user_id : option string) : item :=
  {| item_prompt := Some (PromptStr prompt); item_messages := Some [];
     item_terra_user_id := terra_user_id; item_user_id := None |}.

Definition parts_request (parts : list content_part) : item :=
  {| item_prompt := Some (PromptList parts); item_messages := Some [];
     item_terra_user_id := None; item_user_id := None |}.

Definition text_part (t : string) : content_part :=
  {| part_type := Some "text"; part_text := Some t; part_image_url := None |}.

Definition image_part (url : string) : content_part :=
  {| part_type := Some "image_url"; part_text := None; part_image_url := Some url |}.

Definition user_request (user_id : string) : item :=
  {| item_prompt := None; item_messages := None;
     item_terra_user_id := None; item_user_id := Some user_id |}.








(** ** Facts about strings *)

Module PyStrFacts.
Import PyStr.

Lemma app_nil_l (s : string) : "" +:+ s = s.
Proof. reflexivity. Qed.

Lemma app_cons c (s t : string) : String c s +:+ t = String c (s +:+ t).
Proof. reflexivity. Qed.

Lemma app_assoc (a b c : string) : (a +:+ b) +:+ c = a +:+ (b +:+ c).
Proof. induction a as [|x a IH]; [done | by rewrite !app_cons, IH]. Qed.

Lemma app_nil_r (a : string) : a +:+ "" = a.
Proof. induction a as [|x a IH]; [done | by rewrite app_cons, IH]. Qed.

Lemma startswith_spec p s :
  startswith p s = true ↔ ∃ post, s = p +:+ post.
Proof.
  revert s. induction p as [|a p IH]; intros s; simpl.
  - split; [intros _; by exists s | done].
  - destruct s as [|b s].
    + split; [done | intros [post H]; by rewrite app_cons in H].
    + destruct (Ascii.eqb a b) eqn:E.
      * apply Ascii.eqb_eq in E as ->. rewrite IH.
        split; intros [post H]; exists post; rewrite app_cons in *; congruence.
      * apply Ascii.eqb_neq in E.
        split; [done | intros [post H]; rewrite app_cons in H; congruence].
Qed.

Lemma contains_spec needle hay :
  contains needle hay = true ↔ occurs_in needle hay.
Proof.
  unfold occurs_in. induction hay as [|c hay IH]; simpl.
  - rewrite orb_false_r, startswith_spec. split.
    + intros [post H]. by exists "", post.
    + intros [pre [post H]]. destruct pre; [by exists post | by rewrite app_cons in H].
  - rewrite orb_true_iff, startswith_spec, IH. split.
    + intros [[post H] | [pre [post H]]].
      * by exists "", post.
      * exists (String c pre), post. by rewrite app_cons, H.
    + intros [pre [post H]]. destruct pre as [|c' pre].
      * left. by exists post.
      * right. exists pre, post. rewrite app_cons in H. congruence.
Qed.

(** Appending text never removes an occurrence. *)
Lemma contains_app_l needle hay suffix :
  contains needle hay = true → contains needle (hay +:+ suffix) = true.
Proof.
  rewrite !contains_spec. intros [pre [post ->]].
  exists pre, (post +:+ suffix). by rewrite !app_assoc.
Qed.

Lemma contains_app_r needle hay prefix :
  contains needle hay = true → contains needle (prefix +:+ hay) = true.
Proof.
  rewrite !contains_spec. intros [pre [post ->]].
  exists (prefix +:+ pre), post. by rewrite !app_assoc.
Qed.

Lemma contains_refl s : contains s s = true.
Proof. apply contains_spec. exists "", "". by rewrite app_nil_l, app_nil_r. Qed.

Lemma contains_empty s : contains "" s = true.
Proof. destruct s; reflexivity. Qed.

End PyStrFacts.

(** ** The helpers on concrete values *)

Example round2_2_675 : PyFloat.round2 0x1.5666666666666p+1 = 0x1.55c28f5c28f5cp+1%float.
Proof. reflexivity. Qed.

Example round2_0_125 : PyFloat.round2 0.125 = 0x1.eb851eb851eb8p-4%float.
Proof. reflexivity. Qed.

Example round2_baseline : PyFloat.round2 PyFloat.f98_6 = PyFloat.f98_6.
Proof. reflexivity. Qed.

Example weekday_2024_04_15 : weekday (Date 2024 4 15) = 0.
Proof. reflexivity. Qed.

Example weekday_2000_01_01 : weekday (Date 2000 1 1) = 5.
Proof. reflexivity. Qed.

Example isoformat_2024_04_05 : isoformat (Date 2024 4 5) = "2024-04-05".
Proof. reflexivity. Qed.

Example divmod_neg : PyNum.divmod (-7) 60 = (-1, 53).
Proof. reflexivity. Qed.

Example str_int_450 : PyNum.str_int 450 = "450".
Proof. reflexivity. Qed.


(** ** Reasoning about method bodies *)

(** A computation that leaves the attribute [name] as it found it,
    whether it returns or raises. *)
Definition keeps (name : string) {A} (c : M A) : Prop :=
  ∀ σ, (c σ).2 !! name = σ !! name.

Lemma keeps_ret name {A} (a : A) : keeps name (ret a).
Proof. by intros σ. Qed.

Lemma keeps_raise name {A} e : keeps name (@raise A e).
Proof. by intros σ. Qed.

Lemma keeps_lift name {A} (r : result A) : keeps name (lift r).
Proof. by intros σ. Qed.

Lemma keeps_getattr name attr : keeps name (getattr attr).
Proof. intros σ. unfold getattr. by destruct (σ !! attr). Qed.

Lemma keeps_setattr name attr v : attr ≠ name → keeps name (setattr attr v).
Proof. intros Hne σ. unfold setattr. simpl. by rewrite lookup_insert_ne. Qed.

Lemma keeps_bind name {A B} (c : M A) (k : A → M B) :
  keeps name c → (∀ a, keeps name (k a)) → keeps name (bind c k).
Proof.
  intros Hc Hk σ. unfold bind. specialize (Hc σ).
  destruct (c σ) as [[a|e] σ'] eqn:E; simpl in *; [|done].
  by rewrite Hk.
Qed.

Ltac keeps_step :=
  lazy zeta;
  first
    [ apply keeps_ret | apply keeps_raise | apply keeps_lift | apply keeps_getattr
    | apply keeps_setattr; congruence
    | apply keeps_bind; [| intros ?]
    | match goal with
      | |- keeps _ (match ?x with _ => _ end) => destruct x
      end ].

Ltac solve_keeps := repeat keeps_step.

(** Inversion of a computation that returned. *)
Lemma bind_Ok {A B} (c : M A) (k : A → M B) σ b σ2 :
  bind c k σ = (Ok b, σ2) → ∃ a σ1, c σ = (Ok a, σ1) ∧ k a σ1 = (Ok b, σ2).
Proof.
  unfold bind. destruct (c σ) as [[a|e] σ1]; [|done]. intros H. by exists a, σ1.
Qed.

Lemma ret_Ok {A} (a b : A) σ σ1 : ret a σ = (Ok b, σ1) → b = a ∧ σ1 = σ.
Proof. unfold ret. by intros [= -> ->]. Qed.

Lemma lift_Ok {A} (r : result A) a σ σ1 : lift r σ = (Ok a, σ1) → r = Ok a ∧ σ1 = σ.
Proof. unfold lift. by intros [= -> ->]. Qed.

Lemma getattr_Ok attr v σ σ1 :
  getattr attr σ = (Ok v, σ1) → σ !! attr = Some v ∧ σ1 = σ.
Proof. unfold getattr. destruct (σ !! attr); by intros [= -> ->]. Qed.

Lemma setattr_Ok attr v u σ σ1 :
  setattr attr v σ = (Ok u, σ1) → σ1 = <[attr := v]> σ.
Proof. unfold setattr. by intros [= _ ->]. Qed.

Ltac minv :=
  repeat
    (lazy zeta in *;
     match goal with
     | H : bind _ _ _ = (Ok _, _) |- _ =>
         let a := fresh "a" in let σ := fresh "σ" in let Ha := fresh "Ha" in
         apply bind_Ok in H as (a & σ & Ha & H)
     | H : ret _ _ = (Ok _, _) |- _ => apply ret_Ok in H as [H ->]; simplify_eq
     | H : lift _ _ = (Ok _, _) |- _ => apply lift_Ok in H as [H ->]
     | H : getattr _ _ = (Ok _, _) |- _ => apply getattr_Ok in H as [H ->]
     | H : setattr _ _ _ = (Ok _, _) |- _ => apply setattr_Ok in H as ->
     end).

(** *** What [enter] and the endpoints assign *)

Lemma enter_keeps boot name :
  name ∉ ["SYSTEM_PROMPT"; "supabase"; "groq"; "llm"; "subquestion_llm";
          "embed_model"; "pplx_llm"; "TERRA_DEV_ID"; "TERRA_API_KEY";
          "mood_feeling_qe"; "diet_nutrition_qe"; "fitness_wellness_qe";
          "current_date"; "day_name"; "content_template"; "phase_info";
          "sub_question_query_engine"; "chat_engine"] →
  keeps name (enter boot).
Proof.
  intros Hname. rewrite !not_elem_of_cons in Hname. destruct_and!.
  unfold enter, os_environ. solve_keeps.
Qed.

Lemma web_inference_keeps ext it name : keeps name (web_inference ext it).
Proof.
  unfold web_inference, web_inference_locals. solve_keeps.
Qed.

Lemma get_weather_keeps ext name : keeps name (_get_weather ext).
Proof. unfold _get_weather, os_environ. solve_keeps. Qed.

Lemma run_generator_keeps ext g name :
  name ≠ "chat_engine" → keeps name (run_generator ext g).
Proof.
  intros Hname. destruct g; simpl;
    unfold _inference, inference_handler, _online_inference,
      _event_schedule_runner, event_scheduler_handler; solve_keeps.
Qed.

Lemma serve_keeps ext c name :
  name ≠ "chat_engine" → keeps name (serve ext c).
Proof.
  intros Hname. destruct c; simpl.
  - apply keeps_bind; [apply web_inference_keeps | intros r].
    destruct streamed; [|apply keeps_ret].
    apply keeps_bind; [by apply run_generator_keeps | intros; apply keeps_ret].
  - unfold dashboard_details. solve_keeps.
  - unfold biometrics_details. solve_keeps; apply get_weather_keeps.
  - unfold initial_biometric_data_load. solve_keeps.
  - unfold dasboard_biometric_data_load, os_environ. solve_keeps; apply get_weather_keeps.
Qed.

(** Requests never assign an attribute other than [chat_engine]. *)
Lemma after_keeps σ calls name :
  name ≠ "chat_engine" → after σ calls !! name = σ !! name.
Proof.
  intros Hname. revert σ. induction calls as [|[ext c] calls IH]; intros σ; [done|].
  simpl. rewrite IH. by apply serve_keeps.
Qed.

(** ** Routing of [web_inference] *)

Import PyStrFacts.

Lemma with_terra_user_id_suffix s terra_user_id :
  with_terra_user_id s terra_user_id = s +:+ terra_suffix terra_user_id.
Proof.
  unfold with_terra_user_id, terra_suffix.
  destruct terra_user_id as [id|]; [destruct (PyStr.truthy id)|];
    by rewrite ?app_nil_r.
Qed.

Lemma contains_with_terra_user_id needle s terra_user_id :
  PyStr.contains needle s = true →
  PyStr.contains needle (with_terra_user_id s terra_user_id) = true.
Proof. rewrite with_terra_user_id_suffix. apply contains_app_l. Qed.

(** Once the request is read, [web_inference] is the marker tests on the
    prompt with the identifier attached, and [self] is untouched. *)
Lemma web_inference_locals_read ext it σ s ms img :
  read_request ext it = Ok (s, ms, img) →
  web_inference_locals ext it σ
  = (Ok (with_terra_user_id s (item_terra_user_id it), ms, img), σ).
Proof. intros H. unfold web_inference_locals, bind, lift, ret. by rewrite H. Qed.

Lemma web_inference_read ext it σ s ms img :
  read_request ext it = Ok (s, ms, img) →
  web_inference ext it σ
  = (Ok (web_inference_route (with_terra_user_id s (item_terra_user_id it)) ms img), σ).
Proof.
  intros H. unfold web_inference, bind.
  by rewrite (web_inference_locals_read _ _ _ _ _ _ H).
Qed.

(** A request that cannot be read is answered by the exception. *)
Lemma web_inference_unread ext it σ e :
  read_request ext it = Raise e → web_inference ext it σ = (Raise e, σ).
Proof.
  intros H. unfold web_inference, web_inference_locals, bind, lift. by rewrite H.
Qed.

Lemma route_pipeline prompt ms img :
  pipeline_of (body (web_inference_route prompt ms img)) = select prompt.
Proof.
  unfold web_inference_route, select.
  by destruct (PyStr.contains "@internet" prompt), (PyStr.contains "schedule" prompt).
Qed.

Lemma route_media_type prompt ms img :
  media_type (web_inference_route prompt ms img) = "text/event-stream".
Proof.
  unfold web_inference_route.
  by destruct (PyStr.contains "@internet" prompt), (PyStr.contains "schedule" prompt).
Qed.

Lemma route_prompt prompt ms img :
  prompt_of (body (web_inference_route prompt ms img))
  = match select prompt, img with
    | Retrieval, ImageResponse r => prompt +:+ image_suffix r
    | _, _ => prompt
    end.
Proof.
  unfold web_inference_route, select, image_suffix.
  by destruct (PyStr.contains "@internet" prompt),
       (PyStr.contains "schedule" prompt), img.
Qed.

Example route_scheduling :
  web_inference at_call (text_request "schedule a checkup next Friday" None) ∅
  = (Ok {| body := gen_event_schedule_runner "schedule a checkup next Friday" [];
           media_type := "text/event-stream" |}, ∅).
Proof. reflexivity. Qed.

(** The tests are case-sensitive. *)
Example route_case_sensitive :
  web_inference at_call (text_request "Schedule a run @Internet" None) ∅
  = (Ok {| body := gen_inference "Schedule a run @Internet" [];
           media_type := "text/event-stream" |}, ∅).
Proof. reflexivity. Qed.

(** A body without ["messages"] is refused before the marker tests. *)
Example route_unread :
  web_inference at_call
    {| item_prompt := Some (PromptStr "hello @internet"); item_messages := None;
       item_terra_user_id := None; item_user_id := None |} ∅
  = (Raise (KeyError "messages"), ∅).
Proof. reflexivity. Qed.

(** C1. A prompt that contains ["@internet"] is answered by the live-web
    pipeline, [_online_inference], whatever else it contains: the test for
    ["@internet"] comes first, so a prompt that also contains ["schedule"]
    still goes to the live web. *)
Theorem live_web_marker_wins ext it σ s ms img :
  read_request ext it = Ok (s, ms, img) →
  PyStr.contains "@internet" s = true →
  web_inference ext it σ
  = (Ok {| body := gen_online_inference
                     (with_terra_user_id s (item_terra_user_id it)) ms;
           media_type := "text/event-stream" |}, σ).
Proof.
  intros Hread Hmark. rewrite (web_inference_read _ _ _ _ _ _ Hread).
  unfold web_inference_route.
  by rewrite (contains_with_terra_user_id _ _ _ Hmark).
Qed.

Lemma live_web_marker_wins_witness :
  let it := text_request "What's the weather and can you schedule a run @internet" None in
  PyStr.contains "schedule" "What's the weather and can you schedule a run @internet" = true
  ∧ web_inference at_call it ∅
    = (Ok {| body := gen_online_inference
                       "What's the weather and can you schedule a run @internet" [];
             media_type := "text/event-stream" |}, ∅).
Proof.
  split; [reflexivity|].
  apply (live_web_marker_wins at_call
           (text_request "What's the weather and can you schedule a run @internet" None)
           ∅ _ [] NoImageResponse); reflexivity.
Defined.

(** What the loop of lines 340-344 leaves in its two locals, read off the
    entries themselves. *)
Lemma prompt_part_Ok p prompt image_url prompt' image_url' :
  prompt_part p (prompt, image_url) = Ok (prompt', image_url') →
  prompt' = default prompt (text_of p) ∧ image_url' = default image_url (url_of p).
Proof.
  unfold prompt_part, text_of, url_of, is_text, is_image_url.
  destruct (part_type p) as [ty|]; simpl; [|done].
  destruct (String.eqb ty "text"), (String.eqb ty "image_url"),
    (part_text p), (part_image_url p); simpl; intros H; by simplify_eq.
Qed.

Lemma last_omap_cons {A B} (f : A → option B) x l d :
  default d (last (omap f (x :: l))) = default (default d (f x)) (last (omap f l)).
Proof.
  simpl. destruct (f x) as [y|]; simpl; [|done].
  rewrite last_cons. change (list_omap A B f l) with (omap f l).
  by destruct (last (omap f l)).
Qed.

Lemma prompt_parts_Ok parts prompt image_url prompt' image_url' :
  prompt_parts parts (prompt, image_url) = Ok (prompt', image_url') →
  prompt' = default prompt (last (omap text_of parts))
  ∧ image_url' = default image_url (last (omap url_of parts)).
Proof.
  revert prompt image_url.
  induction parts as [|p parts IH]; intros prompt image_url; cbn [prompt_parts].
  - by intros [= <- <-].
  - destruct (prompt_part p (prompt, image_url)) as [[s u]|e] eqn:Hp; [|done].
    apply prompt_part_Ok in Hp as [-> ->]. intros H. apply IH in H as [-> ->].
    by rewrite !last_omap_cons.
Qed.

Lemma read_prompt_Ok p s url :
  read_prompt p = Ok (s, url) → s = user_text p ∧ url = user_image_url p.
Proof.
  destruct p as [s'|parts]; cbn [read_prompt user_text user_image_url].
  - by intros [= <- <-].
  - apply prompt_parts_Ok.
Qed.

(** A request that was read: the text is the user's own, and the image
    response is the collaborator's answer for the image of the body. *)
Lemma read_request_Ok ext it s ms img :
  read_request ext it = Ok (s, ms, img) →
  ∃ p,
    item_prompt it = Some p
    ∧ item_messages it = Some ms
    ∧ s = user_text p
    ∧ match img with
      | ImageResponse r =>
          PyStr.truthy (user_image_url p) = true
          ∧ ImageHandler_run ext (user_image_url p) = Ok r
      | NoImageResponse => PyStr.truthy (user_image_url p) = false
      end.
Proof.
  unfold read_request.
  destruct (item_prompt it) as [p|]; [|done]. cbn [field rbind].
  destruct (read_prompt p) as [[s' url]|e] eqn:Hp; [|done]. cbn [rbind].
  apply read_prompt_Ok in Hp as [-> ->].
  destruct (item_messages it) as [ms'|]; [|done]. cbn [field rbind].
  destruct (PyStr.truthy (user_image_url p)) eqn:Hurl.
  - destruct (ImageHandler_run ext (user_image_url p)) as [r|e] eqn:Hr; [|done].
    cbn [rbind]. intros [= <- <- <-]. by exists p.
  - cbn [rbind]. intros [= <- <- <-]. by exists p.
Qed.

(** C2, as the code has it.  The string the two marker tests inspect is the
    user's own text (the prompt string, or the last text entry of a
    structured prompt) followed by what the user identifier adds: the line
    ["Terra User ID: <id>"] when the request carries a non-empty
    [terra_user_id], nothing otherwise.  Nothing else is in it: the
    summary of an image of the request is no part of it. *)
Theorem marker_tests_inspect_text_and_identifier ext it σ s ms img :
  read_request ext it = Ok (s, ms, img) →
  ∃ p inspected,
    item_prompt it = Some p
    ∧ web_inference_locals ext it σ = (Ok (inspected, ms, img), σ)
    ∧ web_inference ext it σ = (Ok (web_inference_route inspected ms img), σ)
    ∧ pipeline_of (body (web_inference_route inspected ms img)) = select inspected
    ∧ inspected = user_text p +:+ terra_suffix (item_terra_user_id it)
    ∧ (item_terra_user_id it = None ∨ item_terra_user_id it = Some "" →
       inspected = user_text p).
Proof.
  intros Hread.
  destruct (read_request_Ok _ _ _ _ _ Hread) as (p & Hp & _ & -> & _).
  exists p, (with_terra_user_id (user_text p) (item_terra_user_id it)).
  split_and!.
  - done.
  - by apply web_inference_locals_read.
  - by apply web_inference_read.
  - apply route_pipeline.
  - apply with_terra_user_id_suffix.
  - by intros [-> | ->].
Qed.

Lemma marker_tests_inspect_text_and_identifier_witness :
  let it :=
    {| item_prompt :=
         Some (PromptList [text_part "plan my week";
                           image_part "https://example.com/wall.png"]);
       item_messages := Some [];
       item_terra_user_id := Some "596be094";
       item_user_id := None |} in
  ∃ inspected,
    web_inference_locals at_call it ∅
    = (Ok (inspected, [],
           ImageResponse (ImageSummary "A printed schedule pinned to a wall")), ∅)
    ∧ inspected = "plan my week" +:+ LF +:+ "Terra User ID: 596be094".
Proof.
  intros it.
  destruct (marker_tests_inspect_text_and_identifier at_call it ∅
              "plan my week" []
              (ImageResponse (ImageSummary "A printed schedule pinned to a wall"))
              eq_refl)
    as (p & inspected & Hp & Hlocals & _ & _ & Hinspected & _).
  injection Hp as <-. exists inspected. by split.
Defined.

(** C2 fails as stated: with a user identifier in the request the tests
    inspect more than the user's text, and the identifier alone can decide
    the pipeline. *)
Lemma marker_tests_not_on_raw_text :
  let it := text_request "plan my week" (Some "schedule-7c1e") in
  read_request at_call it = Ok ("plan my week", [], NoImageResponse)
  ∧ (web_inference_locals at_call it ∅).1
    = Ok ("plan my week" +:+ LF +:+ "Terra User ID: schedule-7c1e", [], NoImageResponse)
  ∧ "plan my week" +:+ LF +:+ "Terra User ID: schedule-7c1e" ≠ "plan my week"
  ∧ select "plan my week" = Retrieval
  ∧ (web_inference at_call it ∅).1
    = Ok {| body := gen_event_schedule_runner
                      ("plan my week" +:+ LF +:+ "Terra User ID: schedule-7c1e") [];
            media_type := "text/event-stream" |}.
Proof. by split_and!. Qed.

(** C3, as the code has it.  For a request with an image, the summary is
    fetched before the marker tests but the tests do not see it: the
    pipeline is selected on the user's own text with the identifier line,
    without the summary; the live-web and scheduling pipelines receive
    that prompt without it, and only the retrieval pipeline receives it
    with the summary of the request's image appended. *)
Theorem image_summary_appended_after_routing ext it σ s ms r :
  read_request ext it = Ok (s, ms, ImageResponse r) →
  ∃ p prompt response,
    item_prompt it = Some p
    ∧ ImageHandler_run ext (user_image_url p) = Ok r
    ∧ prompt = user_text p +:+ terra_suffix (item_terra_user_id it)
    ∧ web_inference ext it σ = (Ok response, σ)
    ∧ pipeline_of (body response) = select prompt
    ∧ prompt_of (body response)
      = match select prompt with
        | Retrieval => prompt +:+ image_suffix r
        | _ => prompt
        end.
Proof.
  intros Hread.
  destruct (read_request_Ok _ _ _ _ _ Hread) as (p & Hp & _ & -> & _ & Hr).
  exists p, (with_terra_user_id (user_text p) (item_terra_user_id it)). eexists.
  split_and!.
  - done.
  - done.
  - apply with_terra_user_id_suffix.
  - by apply web_inference_read.
  - apply route_pipeline.
  - rewrite route_prompt. by destruct (select _).
Qed.

Lemma image_summary_appended_after_routing_witness :
  let it := parts_request [text_part "schedule a run like this one";
                           image_part "https://example.com/run.png"] in
  ∃ response,
    web_inference at_call it ∅ = (Ok response, ∅)
    ∧ pipeline_of (body response) = Scheduling
    ∧ prompt_of (body response) = "schedule a run like this one".
Proof.
  intros it.
  destruct (image_summary_appended_after_routing at_call it ∅
              "schedule a run like this one" []
              (ImageSummary "A printed schedule pinned to a wall") eq_refl)
    as (p & prompt & response & Hp & _ & -> & Hresp & Hpipe & Hprompt).
  injection Hp as <-. by exists response.
Defined.

(** C3 fails as stated: the summary of the image contains ["schedule"],
    so a selection made on the prompt with the summary would be the
    scheduling pipeline; the code selects retrieval. *)
Lemma image_summary_not_seen_by_marker_tests :
  let it := parts_request [text_part "What is in this picture?";
                           image_part "https://example.com/wall.png"] in
  let with_summary :=
    "What is in this picture?"
    +:+ image_suffix (ImageSummary "A printed schedule pinned to a wall") in
  read_request at_call it
  = Ok ("What is in this picture?", [],
        ImageResponse (ImageSummary "A printed schedule pinned to a wall"))
  ∧ select with_summary = Scheduling
  ∧ web_inference at_call it ∅
    = (Ok {| body := gen_inference with_summary [];
             media_type := "text/event-stream" |}, ∅).
Proof. by split_and!. Qed.

(** C5. Every request that can be read (it carries a prompt and messages,
    its structured parts have their keys, the image collaborator answers)
    gets a streaming response from exactly one pipeline: live web when the
    prompt contains ["@internet"], otherwise scheduling when it contains
    ["schedule"], otherwise retrieval.  Answering leaves the instance as
    it was. *)
Theorem mode_routing_total_exclusive ext it σ s ms img :
  read_request ext it = Ok (s, ms, img) →
  let prompt := with_terra_user_id s (item_terra_user_id it) in
  ∃ response,
    web_inference ext it σ = (Ok response, σ)
    ∧ media_type response = "text/event-stream"
    ∧ (pipeline_of (body response) = LiveWeb
       ↔ PyStr.contains "@internet" prompt = true)
    ∧ (pipeline_of (body response) = Scheduling
       ↔ PyStr.contains "@internet" prompt = false
         ∧ PyStr.contains "schedule" prompt = true)
    ∧ (pipeline_of (body response) = Retrieval
       ↔ PyStr.contains "@internet" prompt = false
         ∧ PyStr.contains "schedule" prompt = false).
Proof.
  intros Hread prompt. eexists. split; [by apply web_inference_read|].
  rewrite route_media_type, route_pipeline. fold prompt. unfold select.
  destruct (PyStr.contains "@internet" prompt), (PyStr.contains "schedule" prompt);
    repeat split; try done; by intros [? ?].
Qed.

Lemma mode_routing_total_exclusive_witness :
  ∃ response,
    web_inference at_call
      (text_request "How should I train for a marathon given my current cycle?" None) ∅
    = (Ok response, ∅)
    ∧ pipeline_of (body response) = Retrieval.
Proof.
  destruct (mode_routing_total_exclusive at_call
              (text_request "How should I train for a marathon given my current cycle?" None)
              ∅ _ [] NoImageResponse eq_refl)
    as (response & Hresp & _ & _ & _ & Hretrieval).
  exists response. split; [exact Hresp|]. by apply Hretrieval.
Defined.

(** ** Structured-content prompts *)

Lemma prompt_parts_app before after locals :
  prompt_parts (before ++ after) locals
  = rbind (prompt_parts before locals) (prompt_parts after).
Proof.
  revert locals. induction before as [|p before IH]; intros locals;
    cbn [prompt_parts app]; [done|].
  destruct (prompt_part p locals) as [locals'|e]; [apply IH | done].
Qed.

Lemma prompt_part_well_formed p prompt image_url :
  well_formed_part p = true →
  ∃ prompt' image_url',
    prompt_part p (prompt, image_url) = Ok (prompt', image_url')
    ∧ (is_text p = false → prompt' = prompt)
    ∧ (is_text p = true → part_text p = Some prompt').
Proof.
  unfold well_formed_part, prompt_part, is_text.
  destruct (part_type p) as [ty|]; [|done]. simpl.
  destruct (String.eqb ty "text"), (String.eqb ty "image_url"),
    (part_text p), (part_image_url p); simpl; try done;
    do 2 eexists; (split; [reflexivity|]); split; congruence.
Qed.

Lemma prompt_parts_well_formed parts locals :
  forallb well_formed_part parts = true →
  ∃ locals', prompt_parts parts locals = Ok locals'.
Proof.
  revert locals. induction parts as [|p parts IH]; intros [prompt image_url] Hwf;
    cbn [prompt_parts forallb] in *; [eauto|].
  apply andb_true_iff in Hwf as [Hp Hparts].
  destruct (prompt_part_well_formed p prompt image_url Hp) as (s & u & -> & _).
  by apply IH.
Qed.

(** Entries of other types leave the local [prompt] alone. *)
Lemma prompt_parts_without_text parts prompt image_url :
  forallb well_formed_part parts = true →
  forallb (λ p, negb (is_text p)) parts = true →
  ∃ image_url', prompt_parts parts (prompt, image_url) = Ok (prompt, image_url').
Proof.
  revert image_url. induction parts as [|p parts IH]; intros image_url Hwf Hno;
    cbn [prompt_parts forallb] in *; [eauto|].
  apply andb_true_iff in Hwf as [Hp Hparts].
  apply andb_true_iff in Hno as [Hp' Hparts'].
  destruct (prompt_part_well_formed p prompt image_url Hp) as (s & u & -> & Hs & _).
  rewrite Hs by by apply negb_true_iff. by apply IH.
Qed.

(** C8. In a structured-content prompt with several entries of type
    ["text"], the prompt is the text of the last of them: each text entry
    overwrites the local [prompt], and the entries before it leave no
    trace. *)
Theorem last_text_entry_is_the_prompt before t stray after :
  forallb well_formed_part before = true →
  forallb well_formed_part after = true →
  forallb (λ p, negb (is_text p)) after = true →
  ∃ image_url,
    read_prompt
      (PromptList
         (before
          ++ {| part_type := Some "text"; part_text := Some t;
                part_image_url := stray |} :: after))
    = Ok (t, image_url).
Proof.
  intros Hbefore Hafter Hno. cbn [read_prompt]. rewrite prompt_parts_app.
  destruct (prompt_parts_well_formed before ("", "") Hbefore) as [[s u] ->].
  cbn [rbind prompt_parts]. unfold prompt_part at 1. simpl.
  by apply prompt_parts_without_text.
Qed.

Lemma last_text_entry_is_the_prompt_witness :
  ∃ image_url,
    read_prompt
      (PromptList [text_part "Plan my meals"; image_part "https://example.com/a.png";
                   text_part "Ignore that"; text_part "Plan my runs";
                   image_part "https://example.com/b.png"])
    = Ok ("Plan my runs", image_url).
Proof.
  exact (last_text_entry_is_the_prompt
           [text_part "Plan my meals"; image_part "https://example.com/a.png";
            text_part "Ignore that"]
           "Plan my runs" None [image_part "https://example.com/b.png"]
           eq_refl eq_refl eq_refl).
Defined.

(** ** The instance over the life of a container *)

(** What a successful [enter] leaves in the instance. *)
Lemma enter_Ok boot σ u σ1 :
  enter boot σ = (Ok u, σ1) →
  σ1 !! "current_date" = Some (VDate (datetime_today boot))
  ∧ (∃ llm, σ1 !! "llm" = Some llm)
  ∧ ∃ mood_feeling diet_nutrition general fitness_wellness sql,
      tool_registry σ1
      = Some (tools_data mood_feeling diet_nutrition general fitness_wellness
                (VCall "QueryEngine.get_empty_query_engine" []) sql).
Proof.
  unfold enter, os_environ. intros H. minv. split_and!.
  - by simplify_map_eq.
  - simplify_map_eq. eauto.
  - unfold tool_registry. simplify_map_eq. do 5 eexists. reflexivity.
Qed.

Lemma enter_started boot :
  (enter boot ∅).1 = Ok tt → enter boot ∅ = (Ok tt, container boot []).
Proof.
  unfold container, after. cbn [fold_left].
  destruct (enter boot ∅) as [r σ]. cbn [fst snd]. by intros ->.
Qed.

Lemma tool_registry_after σ calls :
  tool_registry (after σ calls) = tool_registry σ.
Proof. unfold tool_registry. by rewrite after_keeps. Qed.

Lemma container_after boot calls :
  container boot calls = after (container boot []) calls.
Proof. reflexivity. Qed.

(** The attribute [df] is assigned neither by [enter] nor by a request. *)
Lemma container_has_no_df boot calls : container boot calls !! "df" = None.
Proof.
  unfold container. rewrite after_keeps by done.
  rewrite enter_keeps; [apply lookup_empty|].
  rewrite !not_elem_of_cons. split_and!; try done. apply not_elem_of_nil.
Qed.

Lemma tools_data_names mood_feeling diet_nutrition general fitness_wellness empty sql :
  tool_name <$> tools_data mood_feeling diet_nutrition general fitness_wellness empty sql
  = [Some "mood/feeling"; Some "diet/nutrition"; Some "general";
     Some "fitness/wellness"; Some "NOTA"; Some "database"].
Proof. reflexivity. Qed.

Lemma tools_data_one_fallback mood_feeling diet_nutrition general fitness_wellness empty sql :
  count_named "NOTA"
    (tools_data mood_feeling diet_nutrition general fitness_wellness empty sql) = 1%nat.
Proof. reflexivity. Qed.

Lemma tools_data_fallback_handler mood_feeling diet_nutrition general fitness_wellness
    empty sql t :
  t ∈ tools_data mood_feeling diet_nutrition general fitness_wellness empty sql →
  tool_name t = Some "NOTA" → tool_handler t = Some empty.
Proof.
  unfold tools_data. rewrite !elem_of_cons, elem_of_nil.
  intros [-> | [-> | [-> | [-> | [-> | [-> | []]]]]]]; by intros [=].
Qed.

(** C4. A request routed to the scheduling pipeline hands the event
    scheduler the date stored by [enter] when the container started, and
    not the date of the clock when the request is served; this holds after
    any sequence of earlier requests. *)
Theorem scheduling_uses_startup_date boot calls ext it response :
  (enter boot ∅).1 = Ok tt →
  (web_inference ext it (container boot calls)).1 = Ok response →
  pipeline_of (body response) = Scheduling →
  ∃ handler,
    run_generator ext (body response) (container boot calls)
    = (EventSchedulerHandler_run ext handler, container boot calls)
    ∧ es_prompt handler = prompt_of (body response)
    ∧ es_current_date handler = VDate (datetime_today boot).
Proof.
  intros Hboot _ Hsched.
  destruct (enter_Ok _ _ _ _ (enter_started _ Hboot)) as (Hdate & [llm Hllm] & _).
  destruct (body response) as [| |prompt ms]; try done.
  exists {| es_prompt := prompt; es_messages := ms; es_llm := llm;
            es_current_date := VDate (datetime_today boot) |}.
  split; [|done].
  rewrite (container_after boot calls).
  cbn [run_generator].
  unfold _event_schedule_runner, event_scheduler_handler, bind, getattr, ret, lift.
  rewrite after_keeps, Hllm by done. lazy beta iota.
  by rewrite after_keeps, Hdate by done.
Qed.

Lemma scheduling_uses_startup_date_witness :
  let earlier := [(at_call, call_web_inference (text_request "How did I sleep?" None) true)] in
  datetime_today at_call = saturday
  ∧ ∃ handler,
      run_generator at_call
        (gen_event_schedule_runner "schedule a checkup next Friday" [])
        (container at_boot earlier)
      = (EventSchedulerHandler_run at_call handler, container at_boot earlier)
      ∧ es_prompt handler = "schedule a checkup next Friday"
      ∧ es_current_date handler = VDate monday.
Proof.
  split; [reflexivity|].
  exact (scheduling_uses_startup_date at_boot
           [(at_call, call_web_inference (text_request "How did I sleep?" None) true)]
           at_call (text_request "schedule a checkup next Friday" None)
           {| body := gen_event_schedule_runner "schedule a checkup next Friday" [];
              media_type := "text/event-stream" |}
           eq_refl eq_refl eq_refl).
Defined.

(** C6. The tool registry is built by [enter] and no request replaces it:
    after any sequence of requests it is the list it was at startup, the
    four domain tools, the fallback ["NOTA"] and the biometrics
    ["database"] tool; exactly one tool is named ["NOTA"], so the registry
    is never empty. *)
Theorem tool_registry_fixed_with_one_fallback boot calls :
  (enter boot ∅).1 = Ok tt →
  ∃ tools,
    tool_registry (container boot []) = Some tools
    ∧ tool_registry (container boot calls) = Some tools
    ∧ tool_name <$> tools
      = [Some "mood/feeling"; Some "diet/nutrition"; Some "general";
         Some "fitness/wellness"; Some "NOTA"; Some "database"]
    ∧ count_named "NOTA" tools = 1%nat
    ∧ tools ≠ []
    ∧ ∀ t, t ∈ tools → tool_name t = Some "NOTA" →
        tool_handler t = Some (VCall "QueryEngine.get_empty_query_engine" []).
Proof.
  intros Hboot.
  destruct (enter_Ok _ _ _ _ (enter_started _ Hboot))
    as (_ & _ & (mood & diet & general & fitness & sql & Htools)).
  eexists. split; [exact Htools|].
  rewrite container_after, tool_registry_after. split; [exact Htools|].
  split; [apply tools_data_names|]. split; [apply tools_data_one_fallback|].
  split; [done|]. apply tools_data_fallback_handler.
Qed.

Lemma tool_registry_fixed_with_one_fallback_witness :
  ∃ tools,
    tool_registry
      (container at_boot
         [(at_call, call_web_inference (text_request "How did I sleep?" None) true);
          (at_call, call_biometrics_details)])
    = Some tools
    ∧ count_named "NOTA" tools = 1%nat.
Proof.
  destruct (tool_registry_fixed_with_one_fallback at_boot
              [(at_call, call_web_inference (text_request "How did I sleep?" None) true);
               (at_call, call_biometrics_details)] eq_refl)
    as (tools & _ & Hafter & _ & Hone & _).
  exists tools. split; assumption.
Defined.

(** C9. Every call of [biometrics_details] raises [AttributeError]: its
    first statement reads [self.df], which neither [enter] nor any
    endpoint assigns.  No response is returned and the instance is left as
    it was. *)
Theorem biometrics_details_always_raises boot calls ext :
  biometrics_details ext (container boot calls)
  = (Raise (AttributeError "df"), container boot calls).
Proof.
  unfold biometrics_details, bind, getattr.
  by rewrite container_has_no_df.
Qed.

(** ** The user identifier and the biometrics tool *)

(** A computation that does not unset the attribute [name]. *)
Definition stays (name : string) {A} (c : M A) : Prop :=
  ∀ σ, is_Some (σ !! name) → is_Some ((c σ).2 !! name).

Lemma stays_ret name {A} (a : A) : stays name (ret a).
Proof. by intros σ. Qed.

Lemma stays_raise name {A} e : stays name (@raise A e).
Proof. by intros σ. Qed.

Lemma stays_lift name {A} (r : result A) : stays name (lift r).
Proof. by intros σ. Qed.

Lemma stays_getattr name attr : stays name (getattr attr).
Proof. intros σ. unfold getattr. by destruct (σ !! attr). Qed.

Lemma stays_setattr name attr v : stays name (setattr attr v).
Proof.
  intros σ H. unfold setattr. cbn [snd]. rewrite lookup_insert_is_Some'. by right.
Qed.

Lemma stays_bind name {A B} (c : M A) (k : A → M B) :
  stays name c → (∀ a, stays name (k a)) → stays name (bind c k).
Proof.
  intros Hc Hk σ H. unfold bind. specialize (Hc σ H).
  destruct (c σ) as [[a|e] σ'] eqn:E; cbn [snd] in *; [|done].
  by apply Hk.
Qed.

Ltac stays_step :=
  lazy zeta;
  first
    [ apply stays_ret | apply stays_raise | apply stays_lift | apply stays_getattr
    | apply stays_setattr
    | apply stays_bind; [| intros ?]
    | match goal with
      | |- stays _ (match ?x with _ => _ end) => destruct x
      end ].

Lemma serve_stays ext c name : stays name (serve ext c).
Proof.
  destruct c; cbn [serve];
    unfold web_inference, web_inference_locals, run_generator, _inference,
      inference_handler, _online_inference, _event_schedule_runner,
      event_scheduler_handler, dashboard_details, biometrics_details,
      initial_biometric_data_load, dasboard_biometric_data_load, _get_weather,
      os_environ;
    repeat stays_step.
Qed.

Lemma after_stays σ calls name :
  is_Some (σ !! name) → is_Some (after σ calls !! name).
Proof.
  revert σ. induction calls as [|[ext c] calls IH]; intros σ H; [done|].
  cbn [after fold_left]. apply IH. by apply serve_stays.
Qed.

(** What a successful [enter] leaves for the pipelines. *)
Lemma enter_Ok_pipelines boot σ u σ1 :
  enter boot σ = (Ok u, σ1) →
  ∃ day engine pplx llm,
    day_names !! Z.to_nat (weekday (datetime_today boot)) = Some day
    ∧ σ1 !! "content_template"
      = Some (VStr (content_template_of (datetime_today boot) day))
    ∧ σ1 !! "phase_info" = Some (VStr "My current mensural phase is: Follicular")
    ∧ σ1 !! "sub_question_query_engine" = Some engine
    ∧ σ1 !! "chat_engine"
      = Some (VCall "QueryEngine.get_chat_engine"
                [("query_engine", engine);
                 ("user_info_content",
                  VStr (content_template_of (datetime_today boot) day))])
    ∧ σ1 !! "pplx_llm" = Some pplx
    ∧ σ1 !! "llm" = Some llm
    ∧ σ1 !! "current_date" = Some (VDate (datetime_today boot)).
Proof.
  unfold enter, os_environ. intros H. minv.
  match goal with
  | H : match day_names !! _ with _ => _ end = Ok ?d |- _ =>
      exists d; destruct (day_names !! _) as [d'|] eqn:Hday; [|done];
      injection H as ->
  end.
  do 3 eexists. split; [done|]. simplify_map_eq. done.
Qed.

(** The attributes the pipelines read, in any state of a started
    container: all but [chat_engine] are as [enter] left them. *)
Lemma container_pipelines boot calls :
  (enter boot ∅).1 = Ok tt →
  ∃ day engine chat pplx llm,
    day_names !! Z.to_nat (weekday (datetime_today boot)) = Some day
    ∧ container boot calls !! "content_template"
      = Some (VStr (content_template_of (datetime_today boot) day))
    ∧ container boot calls !! "phase_info"
      = Some (VStr "My current mensural phase is: Follicular")
    ∧ container boot calls !! "sub_question_query_engine" = Some engine
    ∧ container boot calls !! "chat_engine" = Some chat
    ∧ container boot calls !! "pplx_llm" = Some pplx
    ∧ container boot calls !! "llm" = Some llm
    ∧ container boot calls !! "current_date" = Some (VDate (datetime_today boot)).
Proof.
  intros Hboot.
  destruct (enter_Ok_pipelines _ _ _ _ (enter_started _ Hboot))
    as (day & engine & pplx & llm & Hday & Hct & Hph & Hsq & Hce & Hpplx & Hllm & Hdate).
  destruct (after_stays (container boot []) calls "chat_engine") as [chat Hchat];
    [rewrite Hce; eauto|].
  exists day, engine, chat, pplx, llm.
  rewrite (container_after boot calls).
  split_and!; rewrite ?after_keeps by done; done.
Qed.

Lemma database_tool_instructs_filter
    mood_feeling diet_nutrition general fitness_wellness empty sql :
  ∃ database,
    database ∈ tools_data mood_feeling diet_nutrition general fitness_wellness empty sql
    ∧ tool_name database = Some "database"
    ∧ tool_handler database = Some sql
    ∧ tool_description database = Some database_description
    ∧ PyStr.contains filter_instruction database_description = true.
Proof.
  exists (tool sql "database" database_description). split_and!; try done.
  unfold tools_data. rewrite !elem_of_cons. tauto.
Qed.

Lemma terra_suffix_contains id : PyStr.contains id (terra_suffix (Some id)) = true.
Proof.
  unfold terra_suffix. destruct id as [|c id]; [done|]. cbn [PyStr.truthy].
  rewrite <- !app_assoc. apply contains_app_r, contains_refl.
Qed.

(** C7, as the code has it.  When a request carries [terra_user_id], a
    non-empty identifier is appended to the user's text as the line
    ["Terra User ID: <id>"] before the marker tests and an empty one adds
    nothing, so the prompt handed to the selected pipeline contains the
    identifier.  The code applies no filter to the biometrics source
    itself: the retrieval pipeline hands its [ChatHandler] that prompt and
    the sub-question engine whose registry holds the ["database"] tool,
    and the description of that tool asks the model to always filter by
    the [terra_user_id]; the live-web and scheduling pipelines are handed
    no query engine. *)
Theorem user_identifier_in_forwarded_prompt boot calls ext it s ms img id :
  (enter boot ∅).1 = Ok tt →
  read_request ext it = Ok (s, ms, img) →
  item_terra_user_id it = Some id →
  ∃ p response tail,
    item_prompt it = Some p
    ∧ web_inference ext it (container boot calls) = (Ok response, container boot calls)
    ∧ prompt_of (body response)
      = user_text p
        +:+ (if PyStr.truthy id then LF +:+ "Terra User ID: " +:+ id else "")
        +:+ tail
    ∧ PyStr.contains id (prompt_of (body response)) = true
    ∧ match pipeline_of (body response) with
      | Retrieval =>
          ∃ handler engine tools database description,
            inference_handler (prompt_of (body response)) ms (container boot calls)
            = (Ok handler, container boot calls)
            ∧ ch_prompt handler = prompt_of (body response)
            ∧ ch_sub_question_query_engine handler = Some engine
            ∧ container boot calls !! "sub_question_query_engine" = Some engine
            ∧ tool_registry (container boot calls) = Some tools
            ∧ database ∈ tools
            ∧ tool_name database = Some "database"
            ∧ tool_description database = Some description
            ∧ PyStr.contains filter_instruction description = true
      | LiveWeb =>
          ∃ context pplx,
            run_generator ext (body response) (container boot calls)
            = (try* curr_history :=
                 ChatHandler_run_online ext
                   {| ch_prompt := prompt_of (body response); ch_messages := ms;
                      ch_user_info_content := context;
                      ch_sub_question_query_engine := None;
                      ch_chat_engine := None;
                      ch_menstrual_phase_info := None |} in
               stream_chat ext pplx curr_history,
               container boot calls)
      | Scheduling =>
          ∃ handler,
            run_generator ext (body response) (container boot calls)
            = (EventSchedulerHandler_run ext handler, container boot calls)
            ∧ es_prompt handler = prompt_of (body response)
            ∧ es_messages handler = ms
      end.
Proof.
  intros Hboot Hread Hid.
  destruct (read_request_Ok _ _ _ _ _ Hread) as (p & Hp & _ & -> & _).
  destruct (container_pipelines boot calls Hboot)
    as (day & engine & chat & pplx & llm & _ & Hct & Hph & Hsq & Hce & Hpplx & Hllm & Hdate).
  destruct (enter_Ok _ _ _ _ (enter_started _ Hboot))
    as (_ & _ & (mood & diet & general & fitness & sql & Htools)).
  rewrite <- (tool_registry_after _ calls), <- container_after in Htools.
  destruct (database_tool_instructs_filter mood diet general fitness
              (VCall "QueryEngine.get_empty_query_engine" []) sql)
    as (database & Hin & Hname & _ & Hdesc & Hfilter).
  set (prompt := with_terra_user_id (user_text p) (item_terra_user_id it)).
  assert (Hprompt : prompt = user_text p +:+ terra_suffix (Some id)).
  { unfold prompt. by rewrite Hid, with_terra_user_id_suffix. }
  assert (Hcontains : PyStr.contains id prompt = true).
  { rewrite Hprompt. apply contains_app_r, terra_suffix_contains. }
  exists p, (web_inference_route prompt ms img),
    (match select prompt, img with
     | Retrieval, ImageResponse r => image_suffix r
     | _, _ => ""
     end).
  split; [done|]. split; [by apply web_inference_read|].
  rewrite route_prompt, route_pipeline.
  split.
  { destruct (select prompt), img; rewrite Hprompt; unfold terra_suffix;
      by rewrite ?app_nil_r, ?app_assoc. }
  split.
  { destruct (select prompt), img; try done; by apply contains_app_l. }
  unfold web_inference_route, select.
  destruct (PyStr.contains "@internet" prompt); [|destruct (PyStr.contains "schedule" prompt)].
  - exists (VStr (content_template_of (datetime_today boot) day)), pplx.
    cbn [body prompt_of run_generator]. unfold _online_inference, bind, getattr, lift.
    rewrite Hct. lazy beta iota.
    destruct (ChatHandler_run_online ext _) as [h|e]; [|done]. lazy beta iota.
    by rewrite Hpplx.
  - eexists. cbn [body prompt_of run_generator].
    unfold _event_schedule_runner, event_scheduler_handler, bind, getattr, ret, lift.
    rewrite Hllm. lazy beta iota. rewrite Hdate. lazy beta iota. by split_and!.
  - eexists _, engine, _, database, _. cbn [body prompt_of].
    unfold inference_handler, bind, getattr, ret.
    rewrite Hct. lazy beta iota. rewrite Hsq. lazy beta iota.
    rewrite Hce. lazy beta iota. rewrite Hph. lazy beta iota.
    by split_and!.
Qed.

Lemma user_identifier_in_forwarded_prompt_witness :
  let it := text_request "How did I sleep this week?" (Some "596be094") in
  let earlier := [(at_call, call_web_inference (text_request "Hello" None) true)] in
  ∃ p response tail,
    item_prompt it = Some p
    ∧ web_inference at_call it (container at_boot earlier)
      = (Ok response, container at_boot earlier)
    ∧ prompt_of (body response)
      = user_text p +:+ (LF +:+ "Terra User ID: 596be094") +:+ tail
    ∧ PyStr.contains "596be094" (prompt_of (body response)) = true.
Proof.
  intros it earlier.
  destruct (user_identifier_in_forwarded_prompt at_boot earlier at_call it
              "How did I sleep this week?" [] NoImageResponse "596be094"
              eq_refl eq_refl eq_refl)
    as (p & response & tail & Hp & Hresp & Hprompt & Hcontains & _).
  exists p, response, tail. split_and!; assumption.
Defined.

(** C7 fails as stated.  A request that carries a user identifier and the
    live-web marker is answered by a pipeline that is handed no query
    engine at all, so the biometrics source is not queried for it, with
    or without a filter; and for a request whose identifier is the empty
    string nothing is attached to the prompt. *)
Lemma user_identifier_without_filtered_query :
  let σ := container at_boot [] in
  let live_web_prompt :=
    "How did I sleep this week? @internet" +:+ LF +:+ "Terra User ID: 596be094" in
  web_inference at_call
    (text_request "How did I sleep this week? @internet" (Some "596be094")) σ
  = (Ok {| body := gen_online_inference live_web_prompt [];
           media_type := "text/event-stream" |}, σ)
  ∧ (∀ ext,
       run_generator ext (gen_online_inference live_web_prompt []) σ
       = (try* curr_history :=
            ChatHandler_run_online ext
              {| ch_prompt := live_web_prompt; ch_messages := [];
                 ch_user_info_content := VStr (content_template_of monday "Monday");
                 ch_sub_question_query_engine := None;
                 ch_chat_engine := None;
                 ch_menstrual_phase_info := None |} in
          stream_chat ext
            (VCall "LLMModel.get_perplexity_model"
               [("model", VConst "PPLX_MODEL"); ("api_key", VStr "k-PPLX_API_KEY");
                ("temperature", VConst "PPLX_MODEL_TEMPERATURE")])
            curr_history,
          σ))
  ∧ web_inference at_call (text_request "How did I sleep this week?" (Some "")) σ
    = (Ok {| body := gen_inference "How did I sleep this week?" [];
             media_type := "text/event-stream" |}, σ).
Proof.
  intros σ live_web_prompt. split; [reflexivity|]. split; [|reflexivity].
  intros ext. cbn [run_generator].
  unfold _online_inference, bind, getattr, lift.
  replace (σ !! "content_template")
    with (Some (VStr (content_template_of monday "Monday"))) by reflexivity.
  lazy beta iota.
  destruct (ChatHandler_run_online ext _) as [h|e]; [|done]. lazy beta iota.
  by replace (σ !! "pplx_llm")
    with (Some (VCall "LLMModel.get_perplexity_model"
                  [("model", VConst "PPLX_MODEL"); ("api_key", VStr "k-PPLX_API_KEY");
                   ("temperature", VConst "PPLX_MODEL_TEMPERATURE")])) by reflexivity.
Qed.

(** ** Body temperature in the two biometrics endpoints *)

Lemma field_Ok {A} key (o : option A) v : field key o = Ok v → o = Some v.
Proof. destruct o; by intros [= ->]. Qed.

Lemma getitem_Ok {A} (d : gmap string A) key v : getitem d key = Ok v → d !! key = Some v.
Proof. unfold getitem. destruct (d !! key); by intros [= ->]. Qed.

(** A weather report that is returned has the three keys of line 420 and
    no other. *)
Lemma get_weather_Ok ext σ w σ1 :
  _get_weather ext σ = (Ok w, σ1) →
  σ1 = σ
  ∧ ∃ location condition temp_f,
      w = <["location" := VStr location]>
            (<["condition" := VStr condition]> (<["temp_f" := temp_f]> ∅)).
Proof.
  unfold _get_weather, os_environ. intros H.
  apply bind_Ok in H as (api_key & σa & Hkey & H).
  apply bind_Ok in H as (response & σb & Hresp & H).
  apply bind_Ok in H as (bound & σc & Hbound & H).
  destruct bound as [[[location temp_f] condition]|]; [|done].
  destruct (status_code response =? 200); minv; eauto 6.
Qed.

Lemma dashboard_body_temperature_truthy temperature :
  PyNum.truthy temperature = true →
  dashboard_body_temperature temperature = PyNum.round2 temperature.
Proof. intros H. unfold dashboard_body_temperature. by rewrite H. Qed.

Lemma dashboard_body_temperature_falsy temperature :
  PyNum.truthy temperature = false →
  dashboard_body_temperature temperature = Ok (VFloat PyFloat.f98_6).
Proof. intros H. unfold dashboard_body_temperature. rewrite H. reflexivity. Qed.

(** The [body_temperature] that [biometrics_details] would return for an
    instance that had a [df]. *)
Lemma biometrics_details_body_temperature ext σ response σ1 :
  biometrics_details ext σ = (Ok response, σ1) →
  ∃ df row temperature_delta body_temperature,
    σ !! "df" = Some df
    ∧ iloc_last df = Ok row
    ∧ row_get row "temperature_delta" = Ok temperature_delta
    ∧ biometrics_body_temperature temperature_delta = Ok body_temperature
    ∧ response !! "body_temperature" = Some body_temperature.
Proof.
  unfold biometrics_details. intros H.
  apply bind_Ok in H as (df & σa & Hdf & H).
  apply bind_Ok in H as (row & σb & Hrow & H).
  apply bind_Ok in H as (menstrual_phase & σc & Hphase & H).
  apply bind_Ok in H as (df2 & σd & Hdf2 & H).
  apply bind_Ok in H as (row2 & σe & Hrow2 & H).
  apply bind_Ok in H as (sleep & σf & Hsleep & H).
  apply bind_Ok in H as (df3 & σg & Hdf3 & H).
  apply bind_Ok in H as (row3 & σh & Hrow3 & H).
  apply bind_Ok in H as (delta & σi & Hdelta & H).
  apply bind_Ok in H as (temperature & σj & Htemp & H).
  apply bind_Ok in H as (seconds & σk & Hseconds & H).
  apply bind_Ok in H as (weather_data & σl & Hweather & H).
  apply bind_Ok in H as (body_temperature & σm & Hbody & H).
  apply get_weather_Ok in Hweather as (-> & location & condition & temp_f & ->).
  minv. exists df3, row3, delta, body_temperature. split_and!; try done.
  unfold biometrics_body_temperature. by rewrite Htemp.
Qed.

(** C10. The [body_temperature] that [dasboard_biometric_data_load]
    returns is [round(temperature, 2)] when the reading is truthy, with no
    baseline added, and [98.6] when the reading is falsy ([None] or zero):
    the expression is [temperature if temperature else (0 + 98.6)].
    [biometrics_details] computes [round(98.6 + temperature_delta, 2)]
    instead, so a reading of half a degree gives 0.5 here and 99.1 there. *)
Theorem dashboard_body_temperature_omits_baseline ext it σ response σ1 :
  dasboard_biometric_data_load ext it σ = (Ok response, σ1) →
  (∃ user_id dev_id api_key sleep temperature body_temperature,
     item_user_id it = Some user_id
     ∧ environ ext !! "TERRA_DEV_ID" = Some dev_id
     ∧ environ ext !! "TERRA_API_KEY" = Some api_key
     ∧ get_dashboard_data ext dev_id api_key user_id = Ok (sleep, temperature)
     ∧ response !! "body_temperature" = Some body_temperature
     ∧ (PyNum.truthy temperature = true →
        PyNum.round2 temperature = Ok body_temperature)
     ∧ (PyNum.truthy temperature = false →
        body_temperature = VFloat PyFloat.f98_6))
  ∧ dashboard_body_temperature (VFloat 0.5) = Ok (VFloat 0.5)
  ∧ biometrics_body_temperature (VFloat 0.5) = Ok (VFloat 0x1.8c66666666666p+6).
Proof.
  intros H. split; [|by split].
  unfold dasboard_biometric_data_load, os_environ in H.
  apply bind_Ok in H as (user_id & σa & Huser & H).
  apply bind_Ok in H as (dev_id & σb & Hdev & H).
  apply bind_Ok in H as (api_key & σc & Hkey & H).
  apply bind_Ok in H as ([sleep temperature] & σd & Hdata & H).
  apply bind_Ok in H as (weather_data & σe & Hweather & H).
  apply bind_Ok in H as (body_temperature & σf & Hbody & H).
  apply get_weather_Ok in Hweather as (-> & location & condition & temp_f & ->).
  minv.
  exists user_id, dev_id, api_key, sleep, temperature, body_temperature.
  split_and!.
  - by apply field_Ok in Huser.
  - by apply getitem_Ok.
  - by apply getitem_Ok.
  - done.
  - rewrite lookup_union_r by by simplify_map_eq. by simplify_map_eq.
  - intros Ht. by rewrite dashboard_body_temperature_truthy in Hbody.
  - intros Ht. rewrite dashboard_body_temperature_falsy in Hbody by done.
    by injection Hbody as <-.
Qed.

Lemma dashboard_body_temperature_omits_baseline_witness :
  let reading := VFloat 0x1.3333333333333p-1 in
  ∃ response σ1,
    dasboard_biometric_data_load (example_surroundings saturday reading)
      (user_request "596be094") ∅ = (Ok response, σ1)
    ∧ response !! "body_temperature" = Some reading.
Proof.
  intros reading.
  destruct (dasboard_biometric_data_load (example_surroundings saturday reading)
              (user_request "596be094") ∅) as [[response|e] σ1] eqn:E;
    [|by vm_compute in E].
  destruct (dashboard_body_temperature_omits_baseline _ _ _ _ _ E)
    as [(user_id & dev_id & api_key & sleep & temperature & v & _ & _ & _
         & Hdata & Hv & Htruthy & _) _].
  injection Hdata as <- <-. specialize (Htruthy eq_refl).
  injection Htruthy as <-. by exists response, σ1.
Defined.

(** ** The weather report and the dashboard biometrics *)










(** ** More on structured-content prompts *)








(** ** Starting a container *)







(** ** What the pipelines are given, and what a request leaves behind *)












(** ** How [enter] wires engines and credentials *)










